(** * Simulated order placement for a futures exchange

    A shallow embedding of [src/limit_orders.py] and [src/market_orders.py]:
    two command-line scripts that validate their positional arguments,
    fabricate an order acknowledgement from random values and the clock,
    log what they do and print a summary.

    Layout: the Python runtime the scripts rely on ([Py]), then one module
    per script, then the facts proved about them. *)

From Stdlib Require Import String Ascii.
From Stdlib Require Import ZArith NArith List Bool Lia.
From Stdlib Require Import Floats.SpecFloat.
Import ListNotations.

Local Open Scope Z_scope.

(** ** The Python runtime used by the scripts *)
Module Py.

(** *** Strings

    A [str] is a sequence of Unicode code points.  The classification of
    ASCII code points is written out; for the others it is read from the
    Unicode character database, which the interpreter ships and which is
    a parameter ([UnicodeData]) of everything that consults it. *)
Definition char := N.
Definition str := list char.

Definition lit (s : string) : str := map N_of_ascii (list_ascii_of_string s).

Definition str_eqb (a b : str) : bool :=
  (length a =? length b)%nat && forallb (fun p => N.eqb (fst p) (snd p)) (combine a b).

Record UnicodeData := {
  ucd_isspace : char -> bool;         (* Py_UNICODE_ISSPACE *)
  ucd_isalnum : char -> bool;         (* alpha, decimal, digit or numeric *)
  ucd_upper   : char -> list char;    (* full upper-case mapping *)
  ucd_decimal : char -> option N      (* Py_UNICODE_TODECIMAL *)
}.

(** The database restricted to ASCII: every code point from 128 on is
    unclassified and maps to itself.  The functions below never read it
    for an ASCII code point. *)
Definition ucd_ascii : UnicodeData :=
  {| ucd_isspace := fun _ => false;
     ucd_isalnum := fun _ => false;
     ucd_upper   := fun c => [c];
     ucd_decimal := fun _ => None |}.

Definition between (lo hi c : N) : bool := ((lo <=? c) && (c <=? hi))%N.

Definition is_ascii (c : char) : bool := (c <? 128)%N.
Definition is_ascii_digit (c : char) : bool := between 48 57 c.
Definition is_ascii_upper (c : char) : bool := between 65 90 c.
Definition is_ascii_lower (c : char) : bool := between 97 122 c.

Section Unicode.
Variable ucd : UnicodeData.

(** [c.isspace()]: TAB..CR, FS..US and SPACE below 128. *)
Definition isspace (c : char) : bool :=
  if is_ascii c then between 9 13 c || between 28 32 c else ucd_isspace ucd c.

(** [c.isalnum()] for one code point. *)
Definition isalnum_char (c : char) : bool :=
  if is_ascii c then is_ascii_digit c || is_ascii_upper c || is_ascii_lower c
  else ucd_isalnum ucd c.

Definition upper_char (c : char) : list char :=
  if is_ascii c then [if is_ascii_lower c then (c - 32)%N else c]
  else ucd_upper ucd c.

Definition decimal_char (c : char) : option N :=
  if is_ascii c then (if is_ascii_digit c then Some (c - 48)%N else None)
  else ucd_decimal ucd c.

(** [s.isalnum()]: every character is alphanumeric and there is at least
    one character. *)
Definition isalnum (s : str) : bool :=
  match s with
  | [] => false
  | _ => forallb isalnum_char s
  end.

(** [s.upper()] *)
Definition upper (s : str) : str := flat_map upper_char s.

Fixpoint lstrip_with (sp : char -> bool) (s : str) : str :=
  match s with
  | [] => []
  | c :: r => if sp c then lstrip_with sp r else s
  end.

Definition strip_with (sp : char -> bool) (s : str) : str :=
  rev (lstrip_with sp (rev (lstrip_with sp s))).

(** [s.strip()] *)
Definition strip (s : str) : str := strip_with isspace s.
End Unicode.

(** [s.endswith(suffix)] *)
Definition endswith (s suffix : str) : bool :=
  (length suffix <=? length s)%nat
  && str_eqb (skipn (length s - length suffix) s) suffix.

(** *** Floating-point numbers: IEEE 754 binary64 *)
Definition prec : Z := 53.
Definition emax : Z := 1024.
Definition float := spec_float.

Definition float_of_Z (z : Z) : float := binary_normalize prec emax z 0 false.
Definition float_add : float -> float -> float := SFadd prec emax.
Definition float_mul : float -> float -> float := SFmul prec emax.
Definition float_le : float -> float -> bool := SFleb.
Definition float_lt : float -> float -> bool := SFltb.

Definition is_finite (x : float) : bool :=
  match x with
  | S754_zero _ | S754_finite _ _ _ => true
  | _ => false
  end.

(** The binary64 number nearest (ties to even) to [(-1)^s * D * 10^E]:
    what the interpreter's [strtod] computes from a decimal numeral.
    A magnitude beyond the largest finite number becomes an infinity, one
    below half the smallest becomes a zero. *)
Definition dec2float (s : bool) (D : Z) (E : Z) : float :=
  match D with
  | Zpos d =>
      if 0 <=? E then binary_normalize prec emax (cond_Zopp s (D * 10 ^ E)) 0 s
      else SFdiv prec emax (S754_finite s d 0)
                           (S754_finite false (Z.to_pos (10 ^ (- E))) 0)
  | _ => S754_zero s
  end.

(** Integer quotient of [a] by [b], rounded to nearest, ties to even. *)
Definition rne_div (a b : Z) : Z :=
  let q := a / b in
  let r := a mod b in
  match 2 * r ?= b with
  | Lt => q
  | Gt => q + 1
  | Eq => if Z.even q then q else q + 1
  end.

(** *** Values, dictionaries, messages and exceptions *)
Inductive value :=
| VInt (z : Z)
| VFloat (x : float)
| VStr (s : str).

(** A [dict] keeps its items in insertion order. *)
Definition dict := list (str * value).

Fixpoint dict_get (d : dict) (k : str) : option value :=
  match d with
  | [] => None
  | (k', v) :: r => if str_eqb k' k then Some v else dict_get r k
  end.

(** A formatted message: literal text and the values interpolated in it. *)
Inductive piece :=
| Txt (s : string)
| Val (v : value)
| Quoted (s : str).
Definition message := list piece.

Inductive exn :=
| ValueError (msg : message)
| OverflowError (msg : message)
| KeyError (key : str)
| ArgumentTypeError (msg : message)
| SystemExit (code : Z).

(** [SystemExit] derives from [BaseException] only: [except Exception]
    lets it through. *)
Definition is_Exception (e : exn) : bool :=
  match e with
  | SystemExit _ => false
  | _ => true
  end.

(** [str(e)] *)
Definition str_of_exn (e : exn) : message :=
  match e with
  | ValueError m | OverflowError m | ArgumentTypeError m => m
  | KeyError k => [Quoted k]
  | SystemExit c => [Val (VInt c)]
  end.

Definition result (A : Type) : Type := exn + A.

(** *** The world a script runs in *)
Inductive level := INFO | ERROR.

Record LogRecord := {
  lvl : level;
  text : message;
  exc_info : option exn   (* the traceback [logging.exception] attaches *)
}.

Inductive output :=
| Logged (r : LogRecord)     (* a line of the stream handler *)
| Printed (d : dict)         (* [print] of a dictionary *)
| HelpText.

Record World := {
  rng : nat -> N;            (* raw output of the generator, by draw *)
  rng_pos : nat;             (* draws consumed so far *)
  clock : float;             (* what [datetime.utcnow().timestamp()] reads *)
  bot_log : list LogRecord;  (* bot.log, opened for appending *)
  stdout : list output;
  stderr : list message;
  calls : list string        (* functions entered, for reasoning only *)
}.

(** The world after one more draw, one more function entered, one more
    item on standard output, one more message on standard error, one more
    log record (written to bot.log and echoed on standard output). *)
Definition drawn (w : World) : World :=
  {| rng := rng w; rng_pos := S (rng_pos w); clock := clock w;
     bot_log := bot_log w; stdout := stdout w; stderr := stderr w;
     calls := calls w |}.
Definition entered (f : string) (w : World) : World :=
  {| rng := rng w; rng_pos := rng_pos w; clock := clock w;
     bot_log := bot_log w; stdout := stdout w; stderr := stderr w;
     calls := calls w ++ [f] |}.
Definition out_to (o : output) (w : World) : World :=
  {| rng := rng w; rng_pos := rng_pos w; clock := clock w;
     bot_log := bot_log w; stdout := stdout w ++ [o]; stderr := stderr w;
     calls := calls w |}.
Definition err_to (msg : message) (w : World) : World :=
  {| rng := rng w; rng_pos := rng_pos w; clock := clock w;
     bot_log := bot_log w; stdout := stdout w; stderr := stderr w ++ [msg];
     calls := calls w |}.
Definition log_to (r : LogRecord) (w : World) : World :=
  {| rng := rng w; rng_pos := rng_pos w; clock := clock w;
     bot_log := bot_log w ++ [r]; stdout := stdout w ++ [Logged r];
     stderr := stderr w; calls := calls w |}.

Definition M (A : Type) : Type := World -> result A * World.

Class Monad (m : Type -> Type) := {
  ret : forall {A}, A -> m A;
  bind : forall {A B}, m A -> (A -> m B) -> m B
}.

(** [raise] and [try: ... except Exception as e: ...] *)
Class MonadExn (m : Type -> Type) := {
  raise : forall {A}, exn -> m A;
  try_except : forall {A}, m A -> (exn -> m A) -> m A
}.

#[export] Instance Monad_result : Monad result := {
  ret := fun A a => inr a;
  bind := fun A B c k => match c with inl e => inl e | inr a => k a end
}.

#[export] Instance MonadExn_result : MonadExn result := {
  raise := fun A e => inl e;
  try_except := fun A c h =>
    match c with
    | inl e => if is_Exception e then h e else inl e
    | inr a => inr a
    end
}.

#[export] Instance Monad_M : Monad M := {
  ret := fun A a w => (inr a, w);
  bind := fun A B c k w =>
    match c w with
    | (inl e, w') => (inl e, w')
    | (inr a, w') => k a w'
    end
}.

#[export] Instance MonadExn_M : MonadExn M := {
  raise := fun A e w => (inl e, w);
  try_except := fun A c h w =>
    match c w with
    | (inl e, w') => if is_Exception e then h e w' else (inl e, w')
    | (inr a, w') => (inr a, w')
    end
}.

Notation "x <- c ;; k" := (bind c (fun x => k))
  (at level 61, c at next level, right associativity).
Notation "c ;;; k" := (bind c (fun _ => k))
  (at level 61, right associativity).

(** A pure computation run inside a script. *)
Definition lift {A} (r : result A) : M A := fun w => (r, w).

(** The exit status of the process that ran [main]: 0 when it returns,
    the code of a [SystemExit], 1 for any other uncaught exception. *)
Definition run (main : M unit) (w : World) : Z * World :=
  match main w with
  | (inr _, w') => (0, w')
  | (inl (SystemExit c), w') => (c, w')
  | (inl _, w') => (1, w')
  end.

Definition enter (f : string) : M unit := fun w => (inr tt, entered f w).

(** [d[k]] *)
Definition getitem {m} `{MonadExn m} `{Monad m} (d : dict) (k : string) : m value :=
  match dict_get d (lit k) with
  | Some v => ret v
  | None => raise (KeyError (lit k))
  end.

(** *** [float(text)]

    As the interpreter does it: non-ASCII digits and spaces are mapped to
    ASCII, blanks are stripped at both ends, underscores between digits
    are removed, and the rest is read as a decimal numeral or, failing
    that, as a signed [inf], [infinity] or [nan] in any letter case.
    [None] stands for the [ValueError]. *)

(** [Py_ISSPACE] *)
Definition is_c_space (c : char) : bool := between 9 13 c || (c =? 32)%N.

Section FloatBuiltin.
Variable ucd : UnicodeData.

Fixpoint transform_decimal_and_space (s : str) : str :=
  match s with
  | [] => []
  | c :: r =>
      if (c <? 127)%N then c :: transform_decimal_and_space r
      else if isspace ucd c then 32%N :: transform_decimal_and_space r
      else match decimal_char ucd c with
           | Some d => (48 + d)%N :: transform_decimal_and_space r
           | None => [63%N]
           end
  end.

Definition to_ascii_numeral (s : str) : str :=
  if forallb is_ascii s then s else transform_decimal_and_space s.
End FloatBuiltin.

(** An underscore has a digit before it and a digit after it. *)
Fixpoint drop_underscores (prev : char) (s : str) : option str :=
  match s with
  | [] => if (prev =? 95)%N then None else Some []
  | c :: r =>
      if (c =? 95)%N then
        if is_ascii_digit prev then drop_underscores c r else None
      else if (prev =? 95)%N && negb (is_ascii_digit c) then None
      else option_map (cons c) (drop_underscores c r)
  end.

Definition take_sign (s : str) : bool * str :=
  match s with
  | 45%N :: r => (true, r)
  | 43%N :: r => (false, r)
  | _ => (false, s)
  end.

Fixpoint span_digits (s : str) : list N * str :=
  match s with
  | [] => ([], [])
  | c :: r =>
      if is_ascii_digit c then
        let '(ds, rest) := span_digits r in ((c - 48)%N :: ds, rest)
      else ([], s)
  end.

Definition digits_value (ds : list N) : Z :=
  fold_left (fun acc d => 10 * acc + Z.of_N d) ds 0.

Definition lower_ascii (c : char) : char :=
  if is_ascii_upper c then (c + 32)%N else c.

Definition ci_eqb (s : str) (word : string) : bool :=
  str_eqb (map lower_ascii s) (lit word).

(** A whole string as a decimal numeral:
    [sign] (digits [. [digits]] | . digits) [(e|E) [sign] digits]. *)
Definition parse_decimal (s : str) : option float :=
  let '(neg, s1) := take_sign s in
  let '(ip, s2) := span_digits s1 in
  let '(fp, s3) := match s2 with
                   | 46%N :: r => span_digits r
                   | _ => ([], s2)
                   end in
  match ip ++ fp with
  | [] => None
  | ds =>
      let shift := Z.of_nat (length fp) in
      match s3 with
      | [] => Some (dec2float neg (digits_value ds) (- shift))
      | c :: r =>
          if (c =? 101)%N || (c =? 69)%N then
            let '(eneg, r1) := take_sign r in
            let '(ed, r2) := span_digits r1 in
            match ed, r2 with
            | _ :: _, [] =>
                Some (dec2float neg (digits_value ds)
                                (cond_Zopp eneg (digits_value ed) - shift))
            | _, _ => None
            end
          else None
      end
  end.

Definition parse_inf_or_nan (s : str) : option float :=
  let '(neg, s1) := take_sign s in
  if ci_eqb s1 "inf" || ci_eqb s1 "infinity" then Some (S754_infinity neg)
  else if ci_eqb s1 "nan" then Some S754_nan
  else None.

Definition float_of_str (ucd : UnicodeData) (s : str) : option float :=
  match drop_underscores 0%N (strip_with is_c_space (to_ascii_numeral ucd s)) with
  | None => None
  | Some t =>
      match parse_decimal t with
      | Some x => Some x
      | None => parse_inf_or_nan t
      end
  end.

(** [float(text)] with its exception. *)
Definition float_ (ucd : UnicodeData) (s : str) : result float :=
  match float_of_str ucd s with
  | Some x => inr x
  | None => inl (ValueError [Txt "could not convert string to float: "; Quoted s])
  end.

(** *** [round(x, ndigits)] on a float

    A finite [x] is rounded, ties to even, to the nearest multiple of
    [10^-ndigits] as a decimal numeral, which is read back as a float. *)
Definition round_ (x : float) (ndigits : Z) : result float :=
  match x with
  | S754_finite s m e =>
      if 323 <? ndigits then inr x
      else if ndigits <? -308 then inr (S754_zero s)
      else
        let num := Zpos m * 2 ^ Z.max e 0 * 10 ^ Z.max ndigits 0 in
        let den := 2 ^ Z.max (- e) 0 * 10 ^ Z.max (- ndigits) 0 in
        let y := dec2float s (rne_div num den) (- ndigits) in
        if is_finite y then inr y
        else inl (OverflowError [Txt "rounded value too large to represent"])
  | _ => inr x
  end.

(** *** [int(x)] on a float: truncation towards zero *)
Definition int_ (x : float) : result Z :=
  match x with
  | S754_zero _ => inr 0
  | S754_finite s m e =>
      inr (cond_Zopp s (if 0 <=? e then Zpos m * 2 ^ e else Zpos m / 2 ^ (- e)))
  | S754_infinity _ =>
      inl (OverflowError [Txt "cannot convert float infinity to integer"])
  | S754_nan => inl (ValueError [Txt "cannot convert float NaN to integer"])
  end.

(** *** The [random] module *)
Definition next_draw : M N := fun w => (inr (rng w (rng_pos w)), drawn w).

(** [random.random()]: [k / 2^53] for a 53-bit integer [k]. *)
Definition random_random : M float :=
  k <- next_draw ;;
  ret (binary_normalize prec emax (Z.of_N k mod 2 ^ 53) (-53) false).

(** [random.randint(a, b)]: an integer [n] with [a <= n <= b]. *)
Definition random_randint (a b : Z) : M Z :=
  if b <? a then raise (ValueError [Txt "empty range for randrange()"])
  else k <- next_draw ;; ret (a + Z.of_N k mod (b - a + 1)).

(** *** The clock: [datetime.utcnow().timestamp()] *)
Definition utcnow_timestamp : M float := fun w => (inr (clock w), w).

(** A reading of a working clock: a finite number of seconds of magnitude
    below [2^38], which covers every date [datetime] can hold. *)
Definition clock_ok (t : float) : bool :=
  match t with
  | S754_zero _ => true
  | S754_finite _ m e => bounded prec emax m e && (Zpos (digits2_pos m) + e <=? 38)
  | _ => false
  end.

(** *** [logging], configured with a file handler on bot.log and a stream
    handler on standard output, and [print] *)
Definition emit (r : LogRecord) : M unit := fun w => (inr tt, log_to r w).

Definition info_record (msg : message) : LogRecord :=
  {| lvl := INFO; text := msg; exc_info := None |}.
Definition error_record (msg : message) : LogRecord :=
  {| lvl := ERROR; text := msg; exc_info := None |}.
Definition exception_record (msg : message) (e : exn) : LogRecord :=
  {| lvl := ERROR; text := msg; exc_info := Some e |}.

Definition logging_info (msg : message) : M unit := emit (info_record msg).
Definition logging_error (msg : message) : M unit := emit (error_record msg).
(** [logging.exception(msg)] inside the handler of [e]: an error record
    that carries the exception and its traceback. *)
Definition logging_exception (msg : message) (e : exn) : M unit :=
  emit (exception_record msg e).

Definition write_stdout (o : output) : M unit := fun w => (inr tt, out_to o w).

Definition print (d : dict) : M unit := write_stdout (Printed d).

(** [sys.exit(code)] *)
Definition sys_exit {A} (code : Z) : M A := raise (SystemExit code).

(** *** [argparse]

    [parse_args] either returns the namespace of positional strings or
    ends the process itself: with status 2 after a usage message on
    standard error, or with status 0 after the help text.  Which of the
    three an argument list leads to is [argparse]'s business; a command
    line is given here by that outcome. *)
Inductive cmdline (NS : Type) :=
| Parsed (ns : NS)
| Malformed (msg : message)
| HelpRequested.
Arguments Parsed {NS} ns.
Arguments Malformed {NS} msg.
Arguments HelpRequested {NS}.

(** [parser.error(msg)]: usage and message on standard error, status 2. *)
Definition parser_error {A} (msg : message) : M A := fun w =>
  (inl (SystemExit 2), err_to msg w).

Definition parse_args {NS} (c : cmdline NS) : M NS :=
  match c with
  | Parsed ns => ret ns
  | Malformed msg => parser_error msg
  | HelpRequested => write_stdout HelpText ;;; sys_exit 0
  end.

End Py.

Import Py.

(** ** limit_orders.py *)
Module limit_orders.

Definition VALID_SIDES : list str := [lit "BUY"; lit "SELL"].

Record Namespace := {
  ns_symbol : str;
  ns_side : str;
  ns_quantity : str;
  ns_price : str
}.

Section Script.
Variable ucd : UnicodeData.

(** [isinstance(symbol, str)] holds of every [str]. *)
Definition validate_symbol (symbol : str) : bool :=
  true && isalnum ucd symbol && endswith symbol (lit "USDT").

Definition validate_quantity (q_str : str) : result float :=
  try_except
    (q <- float_ ucd q_str ;;
     if float_le q (float_of_Z 0)
     then raise (ValueError [Txt "Quantity must be > 0"])
     else ret q)
    (fun e => raise (ArgumentTypeError (str_of_exn e))).

Definition validate_price (p_str : str) : result float :=
  try_except
    (p <- float_ ucd p_str ;;
     if float_le p (float_of_Z 0)
     then raise (ValueError [Txt "Price must be > 0"])
     else ret p)
    (fun e => raise (ArgumentTypeError (str_of_exn e))).

Definition simulate_place_limit_order
    (symbol side : str) (quantity price : float) : M dict :=
  enter "simulate_place_limit_order" ;;;
  order_id <- random_randint 10000000 99999999 ;;
  now <- utcnow_timestamp ;;
  transact_time <- lift (int_ (float_mul now (float_of_Z 1000))) ;;
  ret [ (lit "orderId", VInt order_id);
        (lit "symbol", VStr symbol);
        (lit "side", VStr side);
        (lit "status", VStr (lit "NEW"));
        (lit "origQty", VFloat quantity);
        (lit "price", VFloat price);
        (lit "transactTime", VInt transact_time) ].

(** The line logged before the order is placed. *)
Definition placing (symbol side : str) (quantity price : float) : message :=
  [Txt "Placing limit order | "; Val (VStr symbol);
   Txt " | "; Val (VStr side);
   Txt " | qty="; Val (VFloat quantity);
   Txt " | price="; Val (VFloat price)].

Definition main (cmd : cmdline Namespace) : M unit :=
  args <- parse_args cmd ;;
  let symbol := upper ucd (strip ucd (ns_symbol args)) in
  let side := upper ucd (strip ucd (ns_side args)) in
  qp <- try_except
          (quantity <- lift (validate_quantity (ns_quantity args)) ;;
           price <- lift (validate_price (ns_price args)) ;;
           ret (quantity, price))
          (fun e =>
             logging_error (Txt "Invalid input: " :: str_of_exn e) ;;;
             parser_error (Txt "Invalid input: " :: str_of_exn e)) ;;
  let '(quantity, price) := qp in
  (if negb (existsb (str_eqb side) VALID_SIDES) then
     logging_error [Txt "Invalid side: "; Val (VStr side)] ;;;
     parser_error [Txt "side must be BUY or SELL"]
   else ret tt) ;;;
  (if negb (validate_symbol symbol) then
     logging_error [Txt "Invalid symbol: "; Val (VStr symbol)] ;;;
     parser_error [Txt "symbol must end with 'USDT' (e.g., BTCUSDT)"]
   else ret tt) ;;;
  logging_info (placing symbol side quantity price) ;;;
  try_except
    (order <- simulate_place_limit_order symbol side quantity price ;;
     id <- getitem order "orderId" ;;
     st <- getitem order "status" ;;
     logging_info [Txt "Limit order placed | orderId="; Val id;
                   Txt " | status="; Val st] ;;;
     v1 <- getitem order "orderId" ;;
     v2 <- getitem order "symbol" ;;
     v3 <- getitem order "side" ;;
     v4 <- getitem order "status" ;;
     v5 <- getitem order "origQty" ;;
     v6 <- getitem order "price" ;;
     print [ (lit "orderId", v1); (lit "symbol", v2); (lit "side", v3);
             (lit "status", v4); (lit "origQty", v5); (lit "price", v6) ])
    (fun e =>
       logging_exception [Txt "Failed to place limit order"] e ;;;
       sys_exit 1).
End Script.

End limit_orders.

(** ** market_orders.py *)
Module market_orders.

Definition VALID_SIDES : list str := [lit "BUY"; lit "SELL"].

Record Namespace := {
  ns_symbol : str;
  ns_side : str;
  ns_quantity : str
}.

Section Script.
Variable ucd : UnicodeData.

Definition validate_symbol (symbol : str) : bool :=
  true && isalnum ucd symbol && endswith symbol (lit "USDT").

Definition validate_quantity (q_str : str) : result float :=
  try_except
    (q <- float_ ucd q_str ;;
     if float_le q (float_of_Z 0)
     then raise (ValueError [Txt "Quantity must be > 0"])
     else ret q)
    (fun e => raise (ArgumentTypeError (str_of_exn e))).

Definition simulate_place_market_order
    (symbol side : str) (quantity : float) : M dict :=
  enter "simulate_place_market_order" ;;;
  r <- random_random ;;
  exec_price <- lift (round_ (float_add (float_of_Z 1000)
                                        (float_mul r (float_of_Z 1000))) 2) ;;
  order_id <- random_randint 10000000 99999999 ;;
  now <- utcnow_timestamp ;;
  transact_time <- lift (int_ (float_mul now (float_of_Z 1000))) ;;
  ret [ (lit "orderId", VInt order_id);
        (lit "symbol", VStr symbol);
        (lit "side", VStr side);
        (lit "status", VStr (lit "FILLED"));
        (lit "executedQty", VFloat quantity);
        (lit "avgPrice", VFloat exec_price);
        (lit "transactTime", VInt transact_time) ].

(** The line logged before the order is placed. *)
Definition placing (symbol side : str) (quantity : float) : message :=
  [Txt "Placing market order | "; Val (VStr symbol);
   Txt " | "; Val (VStr side);
   Txt " | qty="; Val (VFloat quantity)].

Definition main (cmd : cmdline Namespace) : M unit :=
  args <- parse_args cmd ;;
  let symbol := upper ucd (strip ucd (ns_symbol args)) in
  let side := upper ucd (strip ucd (ns_side args)) in
  quantity <- try_except
                (lift (validate_quantity (ns_quantity args)))
                (fun e =>
                   logging_error (Txt "Invalid quantity: " :: str_of_exn e) ;;;
                   parser_error (Txt "Invalid quantity: " :: str_of_exn e)) ;;
  (if negb (existsb (str_eqb side) VALID_SIDES) then
     logging_error [Txt "Invalid side: "; Val (VStr side)] ;;;
     parser_error [Txt "side must be BUY or SELL"]
   else ret tt) ;;;
  (if negb (validate_symbol symbol) then
     logging_error [Txt "Invalid symbol: "; Val (VStr symbol)] ;;;
     parser_error [Txt "symbol must end with 'USDT' (e.g., BTCUSDT)"]
   else ret tt) ;;;
  logging_info (placing symbol side quantity) ;;;
  try_except
    (order <- simulate_place_market_order symbol side quantity ;;
     id <- getitem order "orderId" ;;
     px <- getitem order "avgPrice" ;;
     logging_info [Txt "Market order placed | orderId="; Val id;
                   Txt " | avgPrice="; Val px] ;;;
     v1 <- getitem order "orderId" ;;
     v2 <- getitem order "symbol" ;;
     v3 <- getitem order "side" ;;
     v4 <- getitem order "status" ;;
     v5 <- getitem order "executedQty" ;;
     v6 <- getitem order "avgPrice" ;;
     print [ (lit "orderId", v1); (lit "symbol", v2); (lit "side", v3);
             (lit "status", v4); (lit "executedQty", v5); (lit "avgPrice", v6) ])
    (fun e =>
       logging_exception [Txt "Failed to place market order"] e ;;;
       sys_exit 1).
End Script.

End market_orders.

(** ** Vocabulary of the statements *)

(** The order summaries printed on a standard output. *)
Definition summaries (out : list output) : list dict :=
  flat_map (fun o => match o with Printed d => [d] | _ => [] end) out.

(** A command line of limit_orders.py on which validation fails: the
    argument list is malformed, or the quantity or the price is refused,
    or the normalised side is neither BUY nor SELL, or the normalised
    symbol is refused. *)
Definition limit_rejected (ucd : UnicodeData)
    (cmd : cmdline limit_orders.Namespace) : Prop :=
  match cmd with
  | Malformed _ => True
  | HelpRequested => False
  | Parsed ns =>
      let side := upper ucd (strip ucd (limit_orders.ns_side ns)) in
      let symbol := upper ucd (strip ucd (limit_orders.ns_symbol ns)) in
      (exists e, limit_orders.validate_quantity ucd (limit_orders.ns_quantity ns) = inl e)
      \/ (exists e, limit_orders.validate_price ucd (limit_orders.ns_price ns) = inl e)
      \/ (side <> lit "BUY" /\ side <> lit "SELL")
      \/ limit_orders.validate_symbol ucd symbol = false
  end.

(** The same for market_orders.py, which takes no price. *)
Definition market_rejected (ucd : UnicodeData)
    (cmd : cmdline market_orders.Namespace) : Prop :=
  match cmd with
  | Malformed _ => True
  | HelpRequested => False
  | Parsed ns =>
      let side := upper ucd (strip ucd (market_orders.ns_side ns)) in
      let symbol := upper ucd (strip ucd (market_orders.ns_symbol ns)) in
      (exists e, market_orders.validate_quantity ucd (market_orders.ns_quantity ns) = inl e)
      \/ (side <> lit "BUY" /\ side <> lit "SELL")
      \/ market_orders.validate_symbol ucd symbol = false
  end.

(** What rounding a positive integer mantissa [m] with exponent [e] to
    binary64 gives, written with integer arithmetic: the mantissa is cut
    at the exponent [fexp] assigns to its magnitude and rounded to
    nearest even; a carry into bit 53 moves the exponent up by one.
    [binary_round_aux] is proved equal to it (lemma [bra_spec]). *)
Definition round_spec (s : bool) (m e : Z) : float :=
  let g := fexp prec emax (Zdigits2 m + e) in
  let m1 := rne_div m (2 ^ (g - e)) in
  if m1 =? 0 then S754_zero s
  else if m1 <? 2 ^ 53 then
    if g <=? 971 then S754_finite s (Z.to_pos m1) g else S754_infinity s
  else
    if g + 1 <=? 971 then S754_finite s (Z.to_pos (2 ^ 52)) (g + 1)
    else S754_infinity s.

(** Magnitudes are compared as integers, in units of [2^-U]: every
    exponent met below is at least [-U]. *)
Definition U : Z := 2200.
Definition units (m : positive) (e : Z) : Z := Zpos m * 2 ^ (e + U).

(** The floats 1000.0 and 2000.0. *)
Definition f1000 : float := S754_finite false 8796093022208000 (-43).
Definition f2000 : float := S754_finite false 8796093022208000 (-42).

(** A finite float between 1000.0 and 2000.0, both included. *)
Definition price_ok (y : float) : bool :=
  is_finite y && float_le (float_of_Z 1000) y && float_le y (float_of_Z 2000).

(** [f] holds of the [n] integers from [lo] on. *)
Fixpoint all_from (f : Z -> bool) (lo : Z) (n : nat) : bool :=
  match n with
  | O => true
  | S n' => f lo && all_from f (lo + 1) n'
  end.

(** A fresh world: a generator that always outputs [draw], a clock that
    reads [t], nothing logged or printed yet. *)
Definition world_of (draw : N) (t : float) : World :=
  {| rng := fun _ => draw; rng_pos := 0; clock := t;
     bot_log := []; stdout := []; stderr := []; calls := [] |}.

(** 14 November 2023, 22:13:20 UTC. *)
Definition t_2023 : float := float_of_Z 1700000000.

(** The log records echoed on a standard output. *)
Definition logged (out : list output) : list LogRecord :=
  flat_map (fun o => match o with Logged r => [r] | _ => [] end) out.

(** The summary the limit script prints for an order. *)
Definition limit_summary (id : Z) (symbol side : str) (q p : float) : dict :=
  [ (lit "orderId", VInt id); (lit "symbol", VStr symbol); (lit "side", VStr side);
    (lit "status", VStr (lit "NEW")); (lit "origQty", VFloat q);
    (lit "price", VFloat p) ].

(** The summary the market script prints for an order. *)
Definition market_summary (id : Z) (symbol side : str) (q px : float) : dict :=
  [ (lit "orderId", VInt id); (lit "symbol", VStr symbol); (lit "side", VStr side);
    (lit "status", VStr (lit "FILLED")); (lit "executedQty", VFloat q);
    (lit "avgPrice", VFloat px) ].

(** A string of ASCII blanks (TAB, LF, VT, FF, CR, SPACE) only; the empty
    string is one. *)
Definition blank (s : str) : bool := forallb is_c_space s.

(** A field of the record a simulator returned, if it returned one. *)
Definition field (k : string) (r : result dict * World) : option value :=
  match fst r with
  | inr order => dict_get order (lit k)
  | inl _ => None
  end.

(** The whole milliseconds in [m * 2^e] seconds. *)
Definition whole_millis (m : positive) (e : Z) : Z :=
  if 0 <=? e then 1000 * Zpos m * 2 ^ e else 1000 * Zpos m / 2 ^ (- e).

(** The upper-case form of an ASCII code point. *)
Definition ascii_upper (c : char) : char :=
  if is_ascii_lower c then (c - 32)%N else c.

(** Nothing is left to strip at the head of [s]. *)
Definition clean_head (sp : char -> bool) (s : str) : Prop :=
  match s with
  | [] => True
  | c :: _ => sp c = false
  end.

(** The text of a sequence of decimal digits. *)
Definition numeral (ds : list N) : str := map (fun d : N => (48 + d)%N) ds.

(** Closed powers of two in the unit of [units] are replaced by their
    values. *)
Ltac pow_consts :=
  repeat match goal with
  | |- context [2 ^ (?a + U)] =>
      lazymatch a with
      | Zpos _ => idtac | Zneg _ => idtac | Z0 => idtac
      end;
      let v := eval vm_compute in (2 ^ (a + U)) in
      change (2 ^ (a + U)) with v
  | H : context [2 ^ (?a + U)] |- _ =>
      lazymatch a with
      | Zpos _ => idtac | Zneg _ => idtac | Z0 => idtac
      end;
      let v := eval vm_compute in (2 ^ (a + U)) in
      change (2 ^ (a + U)) with v in H
  end.

(** One step of a script: the monad's operations and the runtime's
    effects are unfolded, the world's fields are read. *)
Ltac step :=
  cbv [bind ret Monad_M Monad_result raise try_except MonadExn_M MonadExn_result
       enter random_randint random_random next_draw utcnow_timestamp lift
       parse_args parser_error sys_exit write_stdout print emit
       logging_info logging_error logging_exception run];
  cbn [rng rng_pos clock bot_log stdout stderr calls fst snd negb is_Exception
       drawn entered out_to err_to log_to].


(** ** Facts about binary64 rounding

    [binary_round_aux], through which every arithmetic operation of
    [SpecFloat] rounds, is characterised by integer arithmetic. *)
Lemma digits2_pos_bounds p :
  2 ^ (Zpos (digits2_pos p) - 1) <= Zpos p < 2 ^ Zpos (digits2_pos p).
Proof.
  induction p as [p IH|p IH|]; cbn [digits2_pos].
  - rewrite Pos2Z.inj_succ.
    replace (Z.succ (Zpos (digits2_pos p)) - 1) with (Z.succ (Zpos (digits2_pos p) - 1)) by lia.
    rewrite !Z.pow_succ_r by lia. lia.
  - rewrite Pos2Z.inj_succ.
    replace (Z.succ (Zpos (digits2_pos p)) - 1) with (Z.succ (Zpos (digits2_pos p) - 1)) by lia.
    rewrite !Z.pow_succ_r by lia. lia.
  - cbn. lia.
Qed.

Lemma iter_pos_nat {A} (f : A -> A) p x :
  iter_pos f p x = Nat.iter (Pos.to_nat p) f x.
Proof.
  revert x. induction p as [p IH|p IH|]; intros x; cbn [iter_pos].
  - rewrite !IH, Pos2Nat.inj_xI. cbn [Nat.mul].
    rewrite Nat.add_0_r, <- Nat.iter_add, <- Nat.iter_succ_r. reflexivity.
  - rewrite !IH, Pos2Nat.inj_xO. cbn [Nat.mul].
    rewrite Nat.add_0_r, <- Nat.iter_add. reflexivity.
  - reflexivity.
Qed.

Lemma shr_1_nonneg m r s :
  0 <= m ->
  shr_1 (Build_shr_record m r s) = Build_shr_record (m / 2) (Z.odd m) (r || s).
Proof.
  intros Hm. rewrite <- Z.div2_div.
  destruct m as [|[p|p|]|p]; try reflexivity; lia.
Qed.

Lemma shr_iter m k :
  0 <= m ->
  Nat.iter (S k) shr_1 (Build_shr_record m false false)
  = Build_shr_record (m / 2 ^ Z.of_nat (S k)) (Z.odd (m / 2 ^ Z.of_nat k))
                     (negb (m mod 2 ^ Z.of_nat k =? 0)).
Proof.
  intros Hm. induction k as [|k IH].
  - cbn [Nat.iter]. rewrite shr_1_nonneg by assumption.
    change (2 ^ Z.of_nat 1) with 2. change (2 ^ Z.of_nat 0) with 1.
    rewrite Z.div_1_r, Z.mod_1_r. reflexivity.
  - rewrite Nat.iter_succ, IH.
    assert (Hp : 0 < 2 ^ Z.of_nat k) by (apply Z.pow_pos_nonneg; lia).
    assert (Hp' : 0 < 2 ^ Z.of_nat (S k)) by (apply Z.pow_pos_nonneg; lia).
    rewrite shr_1_nonneg by (apply Z.div_pos; lia).
    f_equal.
    + rewrite Z.div_div by lia.
      rewrite (Nat2Z.inj_succ (S k)), Z.pow_succ_r by lia. f_equal. lia.
    + rewrite (Nat2Z.inj_succ k), Z.pow_succ_r by lia.
      rewrite (Z.mul_comm 2), Z.rem_mul_r by lia.
      assert (H2 := Z.mod_pos_bound m (2 ^ Z.of_nat k) Hp).
      rewrite Zodd_mod.
      assert (H3 := Z.mod_pos_bound (m / 2 ^ Z.of_nat k) 2 ltac:(lia)).
      destruct (Z.eqb_spec ((m / 2 ^ Z.of_nat k) mod 2) 1);
      destruct (Z.eqb_spec (m mod 2 ^ Z.of_nat k) 0);
      destruct (Z.eqb_spec (m mod 2 ^ Z.of_nat k + 2 ^ Z.of_nat k * ((m / 2 ^ Z.of_nat k) mod 2)) 0);
      cbn; try reflexivity; nia.
Qed.

Lemma shr_pos m p :
  0 <= m ->
  iter_pos shr_1 p (Build_shr_record m false false)
  = Build_shr_record (m / 2 ^ Zpos p) (Z.odd (m / 2 ^ (Zpos p - 1)))
                     (negb (m mod 2 ^ (Zpos p - 1) =? 0)).
Proof.
  intros Hm. rewrite iter_pos_nat.
  destruct (Pos2Nat.is_succ p) as [k Hk]. rewrite Hk, shr_iter by assumption.
  replace (Z.of_nat (S k)) with (Zpos p) by lia.
  replace (Z.of_nat k) with (Zpos p - 1) by lia.
  reflexivity.
Qed.

Lemma rne_of_shr m n :
  0 <= m -> 0 < n ->
  round_nearest_even (m / 2 ^ n)
    (loc_of_shr_record
       (Build_shr_record (m / 2 ^ n) (Z.odd (m / 2 ^ (n - 1)))
                         (negb (m mod 2 ^ (n - 1) =? 0))))
  = rne_div m (2 ^ n).
Proof.
  intros Hm Hn. unfold rne_div.
  assert (Hp : 0 < 2 ^ (n - 1)) by (apply Z.pow_pos_nonneg; lia).
  assert (E : 2 ^ n = 2 ^ (n - 1) * 2).
  { replace n with (Z.succ (n - 1)) at 1 by lia. rewrite Z.pow_succ_r by lia. lia. }
  assert (Hrem : m mod 2 ^ n
                 = m mod 2 ^ (n - 1) + 2 ^ (n - 1) * ((m / 2 ^ (n - 1)) mod 2)).
  { rewrite E. apply Z.rem_mul_r; lia. }
  assert (H2 := Z.mod_pos_bound m (2 ^ (n - 1)) Hp).
  assert (H3 := Z.mod_pos_bound (m / 2 ^ (n - 1)) 2 ltac:(lia)).
  rewrite Zodd_mod.
  destruct (Z.compare_spec (2 * (m mod 2 ^ n)) (2 ^ n)) as [Hc|Hc|Hc];
  destruct (Z.eqb_spec ((m / 2 ^ (n - 1)) mod 2) 1) as [Hb|Hb];
  destruct (Z.eqb_spec (m mod 2 ^ (n - 1)) 0) as [Hr|Hr];
  cbn [negb loc_of_shr_record round_nearest_even]; try reflexivity; exfalso; nia.
Qed.

Lemma rne_div_bracket a b :
  0 < b ->
  a / b <= rne_div a b <= a / b + 1 /\ (a mod b = 0 -> rne_div a b = a / b).
Proof.
  intros Hb. unfold rne_div.
  destruct (Z.compare_spec (2 * (a mod b)) b) as [H|H|H];
    try destruct (Z.even (a / b)); split; try lia; intros H0; try lia.
Qed.

Lemma fexp_eq x : fexp prec emax x = Z.max (x - 53) (-1074).
Proof. reflexivity. Qed.

Lemma Zdigits2_le x k :
  0 < x < 2 ^ k -> 0 < Zdigits2 x <= k.
Proof.
  intros [H0 Hk]. destruct x as [|p|p]; try lia. cbn [Zdigits2].
  split; [lia|].
  destruct (digits2_pos_bounds p) as [Hl _].
  destruct (Z.le_gt_cases (Zpos (digits2_pos p)) k) as [|Hgt]; [assumption|exfalso].
  assert (2 ^ k <= 2 ^ (Zpos (digits2_pos p) - 1)).
  { apply Z.pow_le_mono_r; lia. }
  lia.
Qed.

Lemma shr_fexp_noop m e :
  fexp prec emax (Zdigits2 m + e) <= e ->
  shr_fexp prec emax m e loc_Exact = (Build_shr_record m false false, e).
Proof.
  intros H. unfold shr_fexp, shr. cbn [shr_record_of_loc].
  destruct (fexp prec emax (Zdigits2 m + e) - e) eqn:E; try reflexivity; lia.
Qed.

Lemma bra_finish s m1 g :
  -1074 <= g -> 0 <= m1 <= 2 ^ 53 ->
  (let '(mrs, e'') := shr_fexp prec emax m1 g loc_Exact in
   match shr_m mrs with
   | Z0 => S754_zero s
   | Zpos m => if e'' <=? emax - prec then S754_finite s m e'' else S754_infinity s
   | Zneg _ => S754_nan
   end)
  = if m1 =? 0 then S754_zero s
    else if m1 <? 2 ^ 53 then
      if g <=? 971 then S754_finite s (Z.to_pos m1) g else S754_infinity s
    else
      if g + 1 <=? 971 then S754_finite s (Z.to_pos (2 ^ 52)) (g + 1) else S754_infinity s.
Proof.
  intros Hg Hm1.
  destruct (Z.eqb_spec m1 0) as [->|Hnz].
  - rewrite shr_fexp_noop; [reflexivity|]. cbn [Zdigits2]. rewrite fexp_eq. lia.
  - destruct (Z.ltb_spec m1 (2 ^ 53)) as [Hlt|Hge].
    + rewrite shr_fexp_noop.
      * cbn [shr_m]. destruct m1; try lia. reflexivity.
      * assert (Hd := Zdigits2_le m1 53 ltac:(lia)). rewrite fexp_eq. lia.
    + assert (m1 = 2 ^ 53) by lia. subst m1.
      unfold shr_fexp. rewrite fexp_eq.
      change (Zdigits2 (2 ^ 53)) with 54.
      replace (Z.max (54 + g - 53) (-1074) - g) with 1 by lia.
      reflexivity.
Qed.

Lemma bra_spec s m e :
  e <= fexp prec emax (Zpos (digits2_pos m) + e) ->
  binary_round_aux prec emax s (Zpos m) e loc_Exact = round_spec s (Zpos m) e.
Proof.
  intros He. unfold binary_round_aux, round_spec. cbn [Zdigits2].
  set (d := Zpos (digits2_pos m)) in *.
  set (g := fexp prec emax (d + e)) in *.
  assert (Hg : -1074 <= g) by (subst g; rewrite fexp_eq; lia).
  assert (Hgd : d + e - 53 <= g) by (subst g; rewrite fexp_eq; lia).
  destruct (digits2_pos_bounds m) as [Hdl Hdu]. fold d in Hdl, Hdu.
  assert (Hq : 0 <= rne_div (Zpos m) (2 ^ (g - e)) <= 2 ^ 53).
  { assert (Hp : 0 < 2 ^ (g - e)) by (apply Z.pow_pos_nonneg; lia).
    destruct (rne_div_bracket (Zpos m) (2 ^ (g - e)) Hp) as [[Hlo Hhi] _].
    assert (0 <= Zpos m / 2 ^ (g - e)) by (apply Z.div_pos; lia).
    assert (Zpos m / 2 ^ (g - e) < 2 ^ 53).
    { apply Z.div_lt_upper_bound; [lia|].
      rewrite <- Z.pow_add_r by lia.
      assert (2 ^ d <= 2 ^ (g - e + 53)) by (apply Z.pow_le_mono_r; lia). lia. }
    lia. }
  unfold shr_fexp at 1. cbn [Zdigits2 shr_record_of_loc]. fold d. fold g.
  unfold shr. destruct (g - e) as [|p|p] eqn:En; try lia.
  - (* no shift *)
    cbn [shr_m loc_of_shr_record round_nearest_even].
    unfold rne_div in Hq |- *. rewrite Z.pow_0_r, Z.div_1_r, Z.mod_1_r in *.
    cbn [Z.mul Z.compare] in *.
    replace (e) with g at 1 by lia.
    apply bra_finish; lia.
  - rewrite shr_pos by lia. cbn [shr_m].
    rewrite rne_of_shr by lia.
    replace (e + Zpos p) with g by lia.
    apply bra_finish; lia.
Qed.

Lemma pow2_pos x : 0 <= x -> 0 < 2 ^ x.
Proof. intros; apply Z.pow_pos_nonneg; lia. Qed.

Lemma pow2_split a b : 0 <= a <= b -> 2 ^ b = 2 ^ a * 2 ^ (b - a).
Proof. intros H. rewrite <- Z.pow_add_r by lia. f_equal. lia. Qed.

Lemma pow2_lt_inv a b : 0 <= a -> 0 <= b -> 2 ^ a < 2 ^ b -> a < b.
Proof. intros Ha Hb H. apply (Z.pow_lt_mono_r_iff 2); lia. Qed.

Lemma Zdigits2_ge x k :
  0 <= k -> 2 ^ (k - 1) <= x -> 0 < x -> k <= Zdigits2 x.
Proof.
  intros Hk H Hx. destruct x as [|p|p]; try lia. cbn [Zdigits2].
  destruct (digits2_pos_bounds p) as [_ Hu].
  destruct (Z.le_gt_cases k (Zpos (digits2_pos p))) as [|Hgt]; [assumption|exfalso].
  assert (2 ^ Zpos (digits2_pos p) <= 2 ^ (k - 1)) by (apply Z.pow_le_mono_r; lia).
  lia.
Qed.

Lemma bounded_inv m e :
  bounded prec emax m e = true ->
  -1074 <= e <= 971 /\ Zpos (digits2_pos m) <= 53 /\
  (e = -1074 \/ Zpos (digits2_pos m) = 53).
Proof.
  unfold bounded, canonical_mantissa. rewrite fexp_eq.
  intros H. apply andb_prop in H. destruct H as [H1 H2].
  apply Z.eqb_eq in H1. apply Z.leb_le in H2. change (emax - prec) with 971 in H2. lia.
Qed.

Lemma bounded_intro m e :
  -1074 <= e <= 971 -> Zpos (digits2_pos m) <= 53 ->
  (e = -1074 \/ Zpos (digits2_pos m) = 53) ->
  bounded prec emax m e = true.
Proof.
  intros He Hd Hc. unfold bounded, canonical_mantissa. rewrite fexp_eq.
  apply andb_true_intro. split; [apply Z.eqb_eq|apply Z.leb_le; change (emax - prec) with 971]; lia.
Qed.

(** Rounding stays between any two binary64 numbers that enclose the
    exact value, and then neither overflows nor yields a zero. *)
Lemma round_spec_pinch s m e Lm Le Hm He :
  - U <= e ->
  e <= fexp prec emax (Zpos (digits2_pos m) + e) ->
  bounded prec emax Lm Le = true ->
  bounded prec emax Hm He = true ->
  units Lm Le <= units m e ->
  units m e <= units Hm He ->
  exists m' e',
    round_spec s (Zpos m) e = S754_finite s m' e' /\
    bounded prec emax m' e' = true /\
    units Lm Le <= units m' e' <= units Hm He.
Proof.
  unfold units. intros HU Hal HbL HbH HL HH. rewrite fexp_eq in Hal.
  destruct (bounded_inv _ _ HbL) as (HLe & HdL & HcL).
  destruct (bounded_inv _ _ HbH) as (HHe & HdH & HcH).
  destruct (digits2_pos_bounds m) as [Hdl Hdu].
  destruct (digits2_pos_bounds Lm) as [HLl HLu].
  destruct (digits2_pos_bounds Hm) as [HHl HHu].
  assert (Hd0 := Pos2Z.is_pos (digits2_pos m)).
  assert (HdL0 := Pos2Z.is_pos (digits2_pos Lm)).
  assert (HdH0 := Pos2Z.is_pos (digits2_pos Hm)).
  unfold round_spec. cbn [Zdigits2]. rewrite fexp_eq.
  set (d := Zpos (digits2_pos m)) in *.
  set (dL := Zpos (digits2_pos Lm)) in *.
  set (dH := Zpos (digits2_pos Hm)) in *.
  set (g := Z.max (d + e - 53) (-1074)).
  assert (HUv : U = 2200) by reflexivity.
  assert (HA : 0 < 2 ^ (e + U)) by (apply pow2_pos; lia).
  (* magnitudes are ordered *)
  assert (Hmu1 : d + e <= dH + He).
  { assert (2 ^ (d - 1 + (e + U)) < 2 ^ (dH + (He + U))).
    { rewrite (Z.pow_add_r 2 (d - 1)), (Z.pow_add_r 2 dH) by lia.
      assert (0 < 2 ^ (He + U)) by (apply pow2_pos; lia).
      assert (2 ^ (d - 1) * 2 ^ (e + U) <= Zpos m * 2 ^ (e + U))
        by (apply Z.mul_le_mono_nonneg_r; lia).
      assert (Zpos Hm * 2 ^ (He + U) < 2 ^ dH * 2 ^ (He + U))
        by (apply Z.mul_lt_mono_pos_r; lia).
      lia. }
    apply pow2_lt_inv in H; lia. }
  assert (Hmu2 : dL + Le <= d + e).
  { assert (2 ^ (dL - 1 + (Le + U)) < 2 ^ (d + (e + U))).
    { rewrite (Z.pow_add_r 2 (dL - 1)), (Z.pow_add_r 2 d) by lia.
      assert (0 < 2 ^ (Le + U)) by (apply pow2_pos; lia).
      assert (2 ^ (dL - 1) * 2 ^ (Le + U) <= Zpos Lm * 2 ^ (Le + U))
        by (apply Z.mul_le_mono_nonneg_r; lia).
      assert (Zpos m * 2 ^ (e + U) < 2 ^ d * 2 ^ (e + U))
        by (apply Z.mul_lt_mono_pos_r; lia).
      lia. }
    apply pow2_lt_inv in H; lia. }
  assert (HgH : g <= He) by lia.
  assert (HLg : Le <= g) by lia.
  assert (Hge : e <= g) by lia.
  set (n := g - e).
  assert (Hn : 0 <= n) by lia.
  assert (HN : 0 < 2 ^ n) by (apply pow2_pos; lia).
  assert (EG : 2 ^ (g + U) = 2 ^ n * 2 ^ (e + U)).
  { rewrite <- Z.pow_add_r by lia. f_equal. lia. }
  assert (EH : 2 ^ (He + U) = 2 ^ (He - g) * 2 ^ (g + U)).
  { rewrite <- Z.pow_add_r by lia. f_equal. lia. }
  assert (HT : 0 < 2 ^ (He - g)) by (apply pow2_pos; lia).
  set (q := Zpos m / 2 ^ n).
  assert (Hdm := Z.div_mod (Zpos m) (2 ^ n) ltac:(lia)).
  assert (Hmb := Z.mod_pos_bound (Zpos m) (2 ^ n) HN).
  fold q in Hdm.
  destruct (rne_div_bracket (Zpos m) (2 ^ n) HN) as [[Hlo Hhi] Hex]. fold q in Hlo, Hhi, Hex.
  set (m1 := rne_div (Zpos m) (2 ^ n)) in *.
  (* upper bound on the rounded mantissa *)
  set (K := Zpos Hm * 2 ^ (He - g)).
  assert (Hup : m1 <= K).
  { assert (HmK : Zpos m <= 2 ^ n * K).
    { rewrite EH, EG in HH.
      apply (Z.mul_le_mono_pos_r _ _ (2 ^ (e + U))); [lia|].
      replace (2 ^ n * K * 2 ^ (e + U))
        with (Zpos Hm * (2 ^ (He - g) * (2 ^ n * 2 ^ (e + U)))) by (unfold K; ring).
      exact HH. }
    assert (q <= K) by (apply Z.div_le_upper_bound; lia).
    destruct (Z.eq_dec q K) as [Eq|Nq]; [|lia].
    assert (Zpos m mod 2 ^ n = 0) by (rewrite Eq in Hdm; lia).
    rewrite Hex by assumption. lia. }
  (* the quotient has its leading bit *)
  assert (Hqlow : 0 <= d - 1 - n -> 2 ^ (d - 1 - n) <= q).
  { intros H. apply Z.div_le_lower_bound; [lia|].
    rewrite <- Z.pow_add_r by lia. replace (n + (d - 1 - n)) with (d - 1) by lia. lia. }
  assert (Hq53 : q < 2 ^ 53).
  { apply Z.div_lt_upper_bound; [lia|].
    rewrite <- Z.pow_add_r by lia.
    assert (2 ^ d <= 2 ^ (n + 53)) by (apply Z.pow_le_mono_r; lia). lia. }
  assert (HG : 0 < 2 ^ (g + U)) by (apply pow2_pos; lia).
  assert (HB : 0 < 2 ^ (Le + U)) by (apply pow2_pos; lia).
  (* lower bound *)
  assert (Hlow : Zpos Lm * 2 ^ (Le + U) <= q * 2 ^ (g + U)).
  { destruct (Z.eq_dec (dL + Le) (d + e)) as [Emu|Nmu].
    - assert (ELe : Le = g) by lia. rewrite ELe in *.
      apply Z.mul_le_mono_nonneg_r; [lia|].
      apply Z.div_le_lower_bound; [lia|].
      rewrite EG in HL.
      apply (Z.mul_le_mono_pos_r _ _ (2 ^ (e + U))); [lia|].
      replace (2 ^ n * Zpos Lm * 2 ^ (e + U))
        with (Zpos Lm * (2 ^ n * 2 ^ (e + U))) by ring.
      exact HL.
    - assert (H1 : 2 ^ (d - 1 - n) <= q) by (apply Hqlow; lia).
      assert (H2 : 2 ^ (dL + (Le + U)) <= 2 ^ (d - 1 - n + (g + U))).
      { apply Z.pow_le_mono_r; lia. }
      rewrite (Z.pow_add_r 2 dL), (Z.pow_add_r 2 (d - 1 - n)) in H2 by lia.
      assert (Zpos Lm * 2 ^ (Le + U) <= 2 ^ dL * 2 ^ (Le + U))
        by (apply Z.mul_le_mono_nonneg_r; lia).
      assert (2 ^ (d - 1 - n) * 2 ^ (g + U) <= q * 2 ^ (g + U))
        by (apply Z.mul_le_mono_nonneg_r; lia).
      lia. }
  assert (Hqpos : 0 < q).
  { assert (0 < Zpos Lm * 2 ^ (Le + U)) by (apply Z.mul_pos_pos; lia).
    apply (Z.mul_pos_cancel_r _ (2 ^ (g + U))); lia. }
  assert (HvL : Zpos Lm * 2 ^ (Le + U) <= m1 * 2 ^ (g + U)).
  { assert (q * 2 ^ (g + U) <= m1 * 2 ^ (g + U))
      by (apply Z.mul_le_mono_nonneg_r; lia).
    lia. }
  assert (HvH : m1 * 2 ^ (g + U) <= Zpos Hm * 2 ^ (He + U)).
  { rewrite EH.
    replace (Zpos Hm * (2 ^ (He - g) * 2 ^ (g + U))) with (K * 2 ^ (g + U))
      by (unfold K; ring).
    apply Z.mul_le_mono_nonneg_r; lia. }
  fold n. fold m1.
  destruct (Z.eqb_spec m1 0) as [|_]; [lia|].
  destruct (Z.ltb_spec m1 (2 ^ 53)) as [Hlt|Hge53].
  - replace (g <=? 971) with true by (symmetry; apply Z.leb_le; lia).
    exists (Z.to_pos m1), g. split; [reflexivity|].
    rewrite Z2Pos.id by lia. split; [|lia].
    apply bounded_intro; try lia.
    + change (Zpos (digits2_pos (Z.to_pos m1))) with (Zdigits2 (Zpos (Z.to_pos m1))).
      rewrite Z2Pos.id by lia. apply Zdigits2_le; lia.
    + destruct (Z.eq_dec g (-1074)) as [|Hg]; [left; assumption|right].
      change (Zpos (digits2_pos (Z.to_pos m1))) with (Zdigits2 (Zpos (Z.to_pos m1))).
      rewrite Z2Pos.id by lia.
      assert (Zdigits2 m1 <= 53) by (apply Zdigits2_le; lia).
      assert (53 <= Zdigits2 m1).
      { apply Zdigits2_ge; try lia.
        assert (H52 : 2 ^ (d - 1 - n) <= q) by (apply Hqlow; lia).
        replace (d - 1 - n) with (53 - 1) in H52 by lia. lia. }
      lia.
  - assert (Em1 : m1 = 2 ^ 53) by lia.
    assert (Hg1 : g + 1 <= He).
    { destruct (Z.eq_dec He g) as [Eg|]; [|lia]. exfalso.
      unfold K in Hup. rewrite Eg, Z.sub_diag, Z.pow_0_r in Hup.
      assert (2 ^ dH <= 2 ^ 53) by (apply Z.pow_le_mono_r; lia). lia. }
    replace (g + 1 <=? 971) with true by (symmetry; apply Z.leb_le; lia).
    exists (Z.to_pos (2 ^ 52)), (g + 1). split; [reflexivity|].
    split.
    { apply bounded_intro; [lia| |right; reflexivity].
      change (Zpos (digits2_pos (Z.to_pos (2 ^ 52)))) with 53. lia. }
    change (Zpos (Z.to_pos (2 ^ 52))) with (2 ^ 52).
    assert (E1 : 2 ^ 52 * 2 ^ (g + 1 + U) = m1 * 2 ^ (g + U)).
    { rewrite Em1. replace (g + 1 + U) with (1 + (g + U)) by lia.
      rewrite (Z.pow_add_r 2 1) by lia. change (2 ^ 53) with (2 ^ 52 * 2 ^ 1). ring. }
    rewrite E1. lia.
Qed.

Lemma iter_xO m d : Zpos (Pos.iter xO m d) = Zpos m * 2 ^ Zpos d.
Proof.
  rewrite (Pos.iter_swap_gen _ _ Zpos xO (Z.mul 2)) by reflexivity.
  change (Pos.iter (Z.mul 2) (Zpos m) d) with (Z.shiftl (Zpos m) (Zpos d)).
  apply Z.shiftl_mul_pow2. lia.
Qed.

Lemma digits_iter_xO m d :
  Zpos (digits2_pos (Pos.iter xO m d)) = Zpos (digits2_pos m) + Zpos d.
Proof.
  induction d as [|d IH] using Pos.peano_ind.
  - cbn [Pos.iter digits2_pos]. lia.
  - rewrite Pos.iter_succ. cbn [digits2_pos]. lia.
Qed.

(** [shl_align] lowers the exponent to [Z.min e e'] without changing the
    value. *)
Lemma shl_align_spec m e e' :
  - U <= Z.min e e' ->
  let '(mz, ez) := shl_align m e e' in
  ez = Z.min e e' /\ units mz ez = units m e /\
  Zpos (digits2_pos mz) + ez = Zpos (digits2_pos m) + e.
Proof.
  intros HU. unfold shl_align, units.
  destruct (e' - e) as [|p|p] eqn:E.
  - repeat split; lia.
  - repeat split; lia.
  - rewrite iter_xO, digits_iter_xO.
    assert (e = e' + Zpos p) by (rewrite <- Pos2Z.opp_pos in E; lia). subst e.
    repeat split; try lia.
    replace (e' + Zpos p + U) with (Zpos p + (e' + U)) by lia.
    rewrite (Z.pow_add_r 2 (Zpos p) (e' + U)) by lia. ring.
Qed.

Lemma binary_round_pinch s m e Lm Le Hm He :
  - U <= e ->
  bounded prec emax Lm Le = true ->
  bounded prec emax Hm He = true ->
  units Lm Le <= units m e <= units Hm He ->
  exists m' e',
    binary_round prec emax s m e = S754_finite s m' e' /\
    bounded prec emax m' e' = true /\
    units Lm Le <= units m' e' <= units Hm He.
Proof.
  intros HU HbL HbH [HL HH]. unfold binary_round.
  assert (HUv : U = 2200) by reflexivity.
  assert (Hf : -1074 <= fexp prec emax (Zpos (digits2_pos m) + e))
    by (rewrite fexp_eq; lia).
  assert (Hs := shl_align_spec m e (fexp prec emax (Zpos (digits2_pos m) + e)) ltac:(lia)).
  destruct (shl_align m e (fexp prec emax (Zpos (digits2_pos m) + e))) as [mz ez].
  destruct Hs as (Ez & Ev & Ed).
  rewrite bra_spec by (rewrite Ed; lia).
  rewrite <- Ev in HL, HH.
  apply round_spec_pinch; try assumption; try lia.
  rewrite Ed. lia.
Qed.

Lemma mul_aligned mx ex my ey :
  bounded prec emax mx ex = true ->
  bounded prec emax my ey = true ->
  ex + ey <= fexp prec emax (Zpos (digits2_pos (mx * my)) + (ex + ey)).
Proof.
  intros Hx Hy.
  destruct (bounded_inv _ _ Hx) as (Hex & Hdx & Hcx).
  destruct (bounded_inv _ _ Hy) as (Hey & Hdy & Hcy).
  destruct (digits2_pos_bounds mx) as [Hxl _].
  destruct (digits2_pos_bounds my) as [Hyl _].
  assert (Hdx0 := Pos2Z.is_pos (digits2_pos mx)).
  assert (Hdy0 := Pos2Z.is_pos (digits2_pos my)).
  assert (Hd : Zpos (digits2_pos mx) + Zpos (digits2_pos my) - 1
               <= Zdigits2 (Zpos (mx * my))).
  { apply Zdigits2_ge; try lia.
    replace (Zpos (digits2_pos mx) + Zpos (digits2_pos my) - 1 - 1)
      with ((Zpos (digits2_pos mx) - 1) + (Zpos (digits2_pos my) - 1)) by lia.
    rewrite Z.pow_add_r, Pos2Z.inj_mul by lia.
    assert (0 < 2 ^ (Zpos (digits2_pos mx) - 1)) by (apply pow2_pos; lia).
    assert (0 < 2 ^ (Zpos (digits2_pos my) - 1)) by (apply pow2_pos; lia).
    apply Z.mul_le_mono_nonneg; lia. }
  cbn [Zdigits2] in Hd. rewrite fexp_eq. lia.
Qed.

Lemma float_mul_pinch sx mx ex sy my ey Lm Le Hm He :
  bounded prec emax mx ex = true ->
  bounded prec emax my ey = true ->
  bounded prec emax Lm Le = true ->
  bounded prec emax Hm He = true ->
  units Lm Le <= units (mx * my) (ex + ey) <= units Hm He ->
  exists m' e',
    float_mul (S754_finite sx mx ex) (S754_finite sy my ey)
    = S754_finite (xorb sx sy) m' e' /\
    bounded prec emax m' e' = true /\
    units Lm Le <= units m' e' <= units Hm He.
Proof.
  intros Hx Hy HbL HbH [HL HH]. unfold float_mul, SFmul.
  assert (Hal := mul_aligned _ _ _ _ Hx Hy).
  destruct (bounded_inv _ _ Hx) as (Hex & _).
  destruct (bounded_inv _ _ Hy) as (Hey & _).
  assert (HUv : U = 2200) by reflexivity.
  rewrite bra_spec by assumption.
  apply round_spec_pinch; try assumption. lia.
Qed.

Lemma units_add a b e : units (a + b) e = units a e + units b e.
Proof. unfold units. rewrite Pos2Z.inj_add. ring. Qed.

Lemma float_add_pinch mx ex my ey Lm Le Hm He :
  bounded prec emax mx ex = true ->
  bounded prec emax my ey = true ->
  bounded prec emax Lm Le = true ->
  bounded prec emax Hm He = true ->
  units Lm Le <= units mx ex + units my ey <= units Hm He ->
  exists m' e',
    float_add (S754_finite false mx ex) (S754_finite false my ey)
    = S754_finite false m' e' /\
    bounded prec emax m' e' = true /\
    units Lm Le <= units m' e' <= units Hm He.
Proof.
  intros Hx Hy HbL HbH Hv. unfold float_add, SFadd. cbn [cond_Zopp].
  destruct (bounded_inv _ _ Hx) as (Hex & _).
  destruct (bounded_inv _ _ Hy) as (Hey & _).
  assert (HUv : U = 2200) by reflexivity.
  assert (Hsx := shl_align_spec mx ex (Z.min ex ey) ltac:(lia)).
  assert (Hsy := shl_align_spec my ey (Z.min ex ey) ltac:(lia)).
  destruct (shl_align mx ex (Z.min ex ey)) as [ax ezx].
  destruct (shl_align my ey (Z.min ex ey)) as [ay ezy].
  destruct Hsx as (Ex & Evx & _). destruct Hsy as (Ey & Evy & _).
  replace (Z.min ex (Z.min ex ey)) with (Z.min ex ey) in Ex by lia.
  replace (Z.min ey (Z.min ex ey)) with (Z.min ex ey) in Ey by lia.
  subst ezx ezy.
  cbn [fst Z.add binary_normalize].
  apply binary_round_pinch; try assumption; try lia.
  rewrite units_add, Evx, Evy. exact Hv.
Qed.

Lemma rne_div_between a b lo hi :
  0 < b -> lo * b <= a <= hi * b -> lo <= rne_div a b <= hi.
Proof.
  intros Hb [Hlo Hhi].
  destruct (rne_div_bracket a b Hb) as [[H1 H2] Hex].
  assert (Hdm := Z.div_mod a b ltac:(lia)).
  assert (Hmb := Z.mod_pos_bound a b Hb).
  assert (lo <= a / b) by (apply Z.div_le_lower_bound; lia).
  assert (a / b <= hi) by (apply Z.div_le_upper_bound; lia).
  split; [lia|].
  destruct (Z.eq_dec (a / b) hi) as [E|]; [|lia].
  rewrite Hex; [lia|]. rewrite E in Hdm. lia.
Qed.

(** The draw of [random.random()] is zero or a number in [2^-53, 1]. *)
Lemma unit_draw_range k :
  0 <= k < 2 ^ 53 ->
  binary_normalize prec emax k (-53) false = S754_zero false \/
  exists m e,
    binary_normalize prec emax k (-53) false = S754_finite false m e /\
    bounded prec emax m e = true /\
    units 4503599627370496 (-105) <= units m e <= units 4503599627370496 (-52).
Proof.
  intros Hk. destruct k as [|p|p]; [left; reflexivity| |lia].
  right. cbn [binary_normalize].
  apply binary_round_pinch; try reflexivity.
  - assert (HUv : U = 2200) by reflexivity. lia.
  - unfold units. pow_consts. lia.
Qed.

Lemma float_of_Z_1000 : float_of_Z 1000 = f1000.
Proof. reflexivity. Qed.
Lemma float_of_Z_2000 : float_of_Z 2000 = f2000.
Proof. reflexivity. Qed.

(** [1000 + r * 1000] for a draw [r]: a number in [1000, 2000]. *)
Lemma unrounded_price_range k :
  0 <= k < 2 ^ 53 ->
  exists m e,
    float_add (float_of_Z 1000)
              (float_mul (binary_normalize prec emax k (-53) false) (float_of_Z 1000))
    = S754_finite false m e /\
    bounded prec emax m e = true /\
    units 8796093022208000 (-43) <= units m e <= units 8796093022208000 (-42).
Proof.
  intros Hk. rewrite float_of_Z_1000. unfold f1000.
  destruct (unit_draw_range k Hk) as [E|(mr & er & E & Hb & Hlo & Hhi)]; rewrite E.
  - exists 8796093022208000%positive, (-43). repeat split; try reflexivity.
    unfold units. pow_consts. lia.
  - destruct (bounded_inv _ _ Hb) as (Her & _).
    assert (HUv : U = 2200) by reflexivity.
    (* the product: between 1000 * 2^-53 and 1000 *)
    destruct (float_mul_pinch false mr er false 8796093022208000 (-43)
                8796093022208000 (-96) 8796093022208000 (-43))
      as (mp & ep & Ep & Hbp & Hpl & Hph); try reflexivity; try assumption.
    { unfold units in *. rewrite Pos2Z.inj_mul.
      assert (Es : 2 ^ (er + U) = 2 ^ 43 * 2 ^ (er + -43 + U)).
      { rewrite <- Z.pow_add_r by lia. f_equal. lia. }
      rewrite Es in Hlo, Hhi. pow_consts.
      set (B := 2 ^ (er + -43 + U)) in *.
      change (2 ^ 43) with 8796093022208 in *. nia. }
    rewrite Ep. cbn [xorb].
    apply float_add_pinch; try reflexivity; try assumption.
    unfold units in *. pow_consts. lia.
Qed.

Lemma all_from_spec f n : forall lo z,
  all_from f lo n = true -> lo <= z < lo + Z.of_nat n -> f z = true.
Proof.
  induction n as [|n IH]; intros lo z H Hz; [lia|].
  cbn [all_from] in H. apply andb_prop in H. destruct H as [H0 H1].
  destruct (Z.eq_dec z lo) as [->|Hne]; [assumption|].
  apply (IH (lo + 1)); [assumption|lia].
Qed.

(** Every amount of cents from 100000 to 200000 reads back as a finite
    float between 1000.0 and 2000.0 (by evaluation of all of them). *)
Lemma cents_ok :
  all_from (fun N => price_ok (dec2float false N (-2))) 100000 (Z.to_nat 100001) = true.
Proof. vm_compute. reflexivity. Qed.

Lemma round2_range m e :
  bounded prec emax m e = true ->
  units 8796093022208000 (-43) <= units m e <= units 8796093022208000 (-42) ->
  exists y, round_ (S754_finite false m e) 2 = inr y /\ price_ok y = true.
Proof.
  intros Hb [Hlo Hhi].
  destruct (bounded_inv _ _ Hb) as (He & Hd & Hc).
  destruct (digits2_pos_bounds m) as [Hml Hmu].
  assert (HUv : U = 2200) by reflexivity.
  unfold units in Hlo, Hhi. pow_consts.
  assert (Hm53 : Zpos m < 2 ^ 53).
  { assert (2 ^ Zpos (digits2_pos m) <= 2 ^ 53) by (apply Z.pow_le_mono_r; lia). lia. }
  assert (HB : 0 < 2 ^ (e + U)) by (apply pow2_pos; lia).
  (* the exponent is -43 or -42 *)
  assert (He1 : -43 <= e).
  { destruct (Z.le_gt_cases (-43) e) as [|Hlt]; [assumption|exfalso].
    assert (2 ^ (e + U) <= 2 ^ (-44 + U)) by (apply Z.pow_le_mono_r; lia).
    pow_consts. change (2 ^ 53) with 9007199254740992 in Hm53. nia. }
  assert (He2 : e <= -42).
  { destruct (Z.le_gt_cases e (-42)) as [|Hgt]; [assumption|exfalso].
    assert (Hd53 : Zpos (digits2_pos m) = 53) by lia.
    rewrite Hd53 in Hml. change (2 ^ (53 - 1)) with 4503599627370496 in Hml.
    assert (2 ^ (-41 + U) <= 2 ^ (e + U)) by (apply Z.pow_le_mono_r; lia).
    pow_consts. nia. }
  assert (Hcases : e = -43 \/ e = -42) by lia.
  assert (HN : 100000 <= rne_div (Zpos m * 2 ^ Z.max e 0 * 10 ^ Z.max 2 0)
                                 (2 ^ Z.max (- e) 0 * 10 ^ Z.max (- (2)) 0) <= 200000).
  { apply rne_div_between.
    - destruct Hcases as [-> | ->]; reflexivity.
    - destruct Hcases as [-> | ->]; pow_consts.
      + change (Z.max (-43) 0) with 0. change (Z.max (- -43) 0) with 43.
        change (Z.max 2 0) with 2. change (Z.max (- (2)) 0) with 0.
        change (2 ^ 0) with 1. change (10 ^ 2) with 100. change (10 ^ 0) with 1.
        change (2 ^ 43) with 8796093022208. lia.
      + change (Z.max (-42) 0) with 0. change (Z.max (- -42) 0) with 42.
        change (Z.max 2 0) with 2. change (Z.max (- (2)) 0) with 0.
        change (2 ^ 0) with 1. change (10 ^ 2) with 100. change (10 ^ 0) with 1.
        change (2 ^ 42) with 4398046511104. lia. }
  unfold round_.
  change (323 <? 2) with false. change (2 <? -308) with false. cbv iota.
  set (N := rne_div _ _) in *.
  assert (Hok := all_from_spec _ _ _ N cents_ok ltac:(rewrite Z2Nat.id; lia)).
  cbv beta in Hok.
  change (- (2)) with (-2).
  exists (dec2float false N (-2)). split; [|assumption].
  unfold price_ok in Hok. apply andb_prop in Hok. destruct Hok as [Hok _].
  apply andb_prop in Hok. destruct Hok as [Hok _]. rewrite Hok. reflexivity.
Qed.

Lemma exec_price_range k :
  0 <= k < 2 ^ 53 ->
  exists y,
    round_ (float_add (float_of_Z 1000)
              (float_mul (binary_normalize prec emax k (-53) false) (float_of_Z 1000))) 2
    = inr y /\ price_ok y = true.
Proof.
  intros Hk. destruct (unrounded_price_range k Hk) as (m & e & E & Hb & Hv).
  rewrite E. apply round2_range; assumption.
Qed.

(** ** The clock *)

(** The timestamp in milliseconds of a working clock is a finite float,
    so [int] converts it. *)
Lemma transact_time_ok t :
  clock_ok t = true ->
  exists z, int_ (float_mul t (float_of_Z 1000)) = inr z.
Proof.
  intros Hc. rewrite float_of_Z_1000. unfold f1000.
  destruct t as [s|s| |s m e]; try discriminate.
  - exists 0. reflexivity.
  - cbn [clock_ok] in Hc. apply andb_prop in Hc. destruct Hc as [Hb Hmag].
    apply Z.leb_le in Hmag.
    destruct (bounded_inv _ _ Hb) as (He & Hd & _).
    destruct (digits2_pos_bounds m) as [_ Hmu].
    assert (Hd0 := Pos2Z.is_pos (digits2_pos m)).
    assert (HUv : U = 2200) by reflexivity.
    destruct (float_mul_pinch s m e false 8796093022208000 (-43)
                1 (-1074) 4503599627370496 (-4))
      as (mp & ep & Ep & _); try reflexivity; try assumption.
    { unfold units. rewrite Pos2Z.inj_mul. pow_consts.
      set (B := 2 ^ (e + -43 + U)).
      assert (HB1 : 2 ^ (-1117 + U) <= B) by (apply Z.pow_le_mono_r; lia).
      assert (HB2 : Zpos m * B <= 2 ^ (-5 + U)).
      { assert (Zpos m * B <= 2 ^ Zpos (digits2_pos m) * B).
        { apply Z.mul_le_mono_nonneg_r; [|lia]. unfold B. apply Z.pow_nonneg. lia. }
        unfold B in *. rewrite <- Z.pow_add_r in H by lia.
        assert (2 ^ (Zpos (digits2_pos m) + (e + -43 + U)) <= 2 ^ (-5 + U))
          by (apply Z.pow_le_mono_r; lia).
        lia. }
      pow_consts.
      assert (HB0 : B <= Zpos m * B).
      { rewrite <- (Z.mul_1_l B) at 1. apply Z.mul_le_mono_nonneg_r; lia. }
      lia. }
    rewrite Ep. cbn [int_]. eexists. reflexivity.
Qed.

(** ** Strings *)
Lemma str_eqb_eq a b : str_eqb a b = true <-> a = b.
Proof.
  unfold str_eqb. revert b. induction a as [|x a IH]; intros [|y b]; cbn; split;
    try discriminate; try reflexivity; intros H.
  - apply andb_prop in H. destruct H as [Hl H].
    apply andb_prop in H. destruct H as [Hxy H].
    apply N.eqb_eq in Hxy. subst y. f_equal. apply IH.
    rewrite Hl. exact H.
  - injection H as -> ->. rewrite N.eqb_refl. cbn.
    assert (H := proj2 (IH b) eq_refl). exact H.
Qed.

Lemma str_eqb_refl a : str_eqb a a = true.
Proof. apply str_eqb_eq. reflexivity. Qed.

Lemma endswith_spec s suffix :
  endswith s suffix = true <-> exists p, s = p ++ suffix.
Proof.
  unfold endswith. split.
  - intros H. apply andb_prop in H. destruct H as [_ H].
    apply str_eqb_eq in H.
    exists (firstn (length s - length suffix) s).
    rewrite <- H at 2. symmetry. apply firstn_skipn.
  - intros [p ->]. rewrite length_app.
    replace (length p + length suffix - length suffix)%nat with (length p) by lia.
    rewrite skipn_app, skipn_all, Nat.sub_diag. cbn [skipn app].
    rewrite str_eqb_refl, andb_true_r. apply Nat.leb_le. lia.
Qed.

Lemma isalnum_spec ucd s :
  isalnum ucd s = true <->
  s <> [] /\ Forall (fun c => isalnum_char ucd c = true) s.
Proof.
  unfold isalnum. destruct s as [|c r].
  - split; [discriminate|]. intros [H _]. now elim H.
  - rewrite forallb_forall, Forall_forall. split.
    + intros H. split; [discriminate|exact H].
    + intros [_ H]. exact H.
Qed.

Lemma in_sides side :
  existsb (str_eqb side) [lit "BUY"; lit "SELL"] = true <->
  side = lit "BUY" \/ side = lit "SELL".
Proof.
  cbn [existsb]. rewrite orb_false_r, orb_true_iff, !str_eqb_eq. reflexivity.
Qed.

(** ** The validators *)

(** C4. [validate_symbol] (in both scripts) is a total boolean function
    that answers [true] exactly for the strings made of alphanumeric
    characters only that end with "USDT". *)
Theorem validate_symbol_iff (ucd : UnicodeData) (symbol : str) :
  (limit_orders.validate_symbol ucd symbol = true <->
   Forall (fun c => isalnum_char ucd c = true) symbol /\
   exists p, symbol = p ++ lit "USDT") /\
  (market_orders.validate_symbol ucd symbol = true <->
   Forall (fun c => isalnum_char ucd c = true) symbol /\
   exists p, symbol = p ++ lit "USDT").
Proof.
  assert (H : true && isalnum ucd symbol && endswith symbol (lit "USDT") = true <->
              Forall (fun c => isalnum_char ucd c = true) symbol /\
              exists p, symbol = p ++ lit "USDT").
  { cbn [andb]. rewrite andb_true_iff, isalnum_spec, endswith_spec. split.
    - intros [[_ Ha] He]. split; assumption.
    - intros [Ha [p He]]. repeat split; try assumption; [|exists p; assumption].
      subst symbol. destruct p; discriminate. }
  split; exact H.
Qed.

(** C9. The two scripts' [validate_quantity] agree on every string, in
    result and in failure, and so do their [validate_symbol]. *)
Theorem validators_agree (ucd : UnicodeData) (text : str) :
  limit_orders.validate_quantity ucd text = market_orders.validate_quantity ucd text /\
  limit_orders.validate_symbol ucd text = market_orders.validate_symbol ucd text.
Proof. split; reflexivity. Qed.

(** What [validate_quantity] and [validate_price] return, by cases on the
    parse. *)
Lemma validate_quantity_cases ucd text :
  limit_orders.validate_quantity ucd text =
  match float_of_str ucd text with
  | None => inl (ArgumentTypeError
                   [Txt "could not convert string to float: "; Quoted text])
  | Some q => if float_le q (float_of_Z 0)
              then inl (ArgumentTypeError [Txt "Quantity must be > 0"])
              else inr q
  end.
Proof.
  unfold limit_orders.validate_quantity, float_.
  destruct (float_of_str ucd text) as [q|]; cbn; [|reflexivity].
  destruct (float_le q _); reflexivity.
Qed.

Lemma validate_price_cases ucd text :
  limit_orders.validate_price ucd text =
  match float_of_str ucd text with
  | None => inl (ArgumentTypeError
                   [Txt "could not convert string to float: "; Quoted text])
  | Some p => if float_le p (float_of_Z 0)
              then inl (ArgumentTypeError [Txt "Price must be > 0"])
              else inr p
  end.
Proof.
  unfold limit_orders.validate_price, float_.
  destruct (float_of_str ucd text) as [q|]; cbn; [|reflexivity].
  destruct (float_le q _); reflexivity.
Qed.

(** C3. [validate_quantity] fails, with the invalid-argument exception,
    exactly when the text does not parse as a float or parses to a value
    that is [<= 0]; otherwise it returns the parsed number.  The same
    holds of [validate_price]. *)
Theorem validate_quantity_contract (ucd : UnicodeData) (text : str) :
  let unparseable_or_nonpositive :=
    float_of_str ucd text = None \/
    exists q, float_of_str ucd text = Some q /\ float_le q (float_of_Z 0) = true in
  let parsed_positive r :=
    exists q, float_of_str ucd text = Some q /\
              float_le q (float_of_Z 0) = false /\ r = inr q in
  ((exists msg, limit_orders.validate_quantity ucd text = inl (ArgumentTypeError msg))
     <-> unparseable_or_nonpositive) /\
  (~ unparseable_or_nonpositive <->
     parsed_positive (limit_orders.validate_quantity ucd text)) /\
  ((exists msg, market_orders.validate_quantity ucd text = inl (ArgumentTypeError msg))
     <-> unparseable_or_nonpositive) /\
  (~ unparseable_or_nonpositive <->
     parsed_positive (market_orders.validate_quantity ucd text)) /\
  ((exists msg, limit_orders.validate_price ucd text = inl (ArgumentTypeError msg))
     <-> unparseable_or_nonpositive) /\
  (~ unparseable_or_nonpositive <->
     parsed_positive (limit_orders.validate_price ucd text)).
Proof.
  cbv zeta.
  change (market_orders.validate_quantity ucd text)
    with (limit_orders.validate_quantity ucd text).
  rewrite validate_quantity_cases, validate_price_cases.
  destruct (float_of_str ucd text) as [q|].
  - destruct (float_le q (float_of_Z 0)) eqn:Hle;
      repeat split;
      try (intros _; right; exists q; split; [reflexivity|assumption]);
      try (intros _; eexists; reflexivity);
      try (intros [msg Hm]; discriminate Hm);
      try (intros [Hn|(q' & Hq & Hl)];
           [discriminate Hn|injection Hq as <-; congruence]);
      try (intros Hn; exfalso; apply Hn; right; exists q; split;
           [reflexivity|assumption]);
      try (intros (q' & Hq & Hl & Hr); discriminate Hr);
      try (intros (q' & Hq & Hl & Hr) [Hn|(q'' & Hq' & Hl')];
           [discriminate Hn|injection Hq' as <-; congruence]);
      try (intros _; exists q; repeat split; assumption).
  - repeat split;
      try (intros _; left; reflexivity);
      try (intros _; eexists; reflexivity);
      try (intros Hn; exfalso; apply Hn; left; reflexivity);
      try (intros (q' & Hq & _); discriminate Hq).
Qed.

(** C10. The strings "inf" and "nan" denote non-finite floats and pass
    [validate_quantity]: the first is returned as positive infinity, the
    second as NaN, for which [<= 0] is false. *)
Theorem validate_quantity_accepts_inf_nan (ucd : UnicodeData) :
  limit_orders.validate_quantity ucd (lit "inf") = inr (S754_infinity false) /\
  limit_orders.validate_quantity ucd (lit "nan") = inr S754_nan /\
  market_orders.validate_quantity ucd (lit "inf") = inr (S754_infinity false) /\
  market_orders.validate_quantity ucd (lit "nan") = inr S754_nan /\
  float_lt (float_of_Z 0) (S754_infinity false) = true /\
  float_le S754_nan (float_of_Z 0) = false /\
  is_finite (S754_infinity false) = false /\ is_finite S754_nan = false.
Proof. repeat split; reflexivity. Qed.

(** ** The simulators *)

Lemma order_id_range (k : N) :
  10000000 <= 10000000 + Z.of_N k mod (99999999 - 10000000 + 1) <= 99999999.
Proof.
  assert (H := Z.mod_pos_bound (Z.of_N k) (99999999 - 10000000 + 1) ltac:(lia)). lia.
Qed.

(** The limit simulator, evaluated: it fails only if the conversion of the
    timestamp does, and otherwise returns the seven fields. *)
Lemma simulate_limit_cases symbol side quantity price w :
  exists id,
    10000000 <= id <= 99999999 /\
    limit_orders.simulate_place_limit_order symbol side quantity price w
    = (match int_ (float_mul (clock w) (float_of_Z 1000)) with
       | inl e => inl e
       | inr ms =>
           inr [ (lit "orderId", VInt id);
                 (lit "symbol", VStr symbol);
                 (lit "side", VStr side);
                 (lit "status", VStr (lit "NEW"));
                 (lit "origQty", VFloat quantity);
                 (lit "price", VFloat price);
                 (lit "transactTime", VInt ms) ]
       end,
       drawn (entered "simulate_place_limit_order" w)).
Proof.
  exists (10000000 + Z.of_N (rng w (rng_pos w)) mod (99999999 - 10000000 + 1)).
  split; [apply order_id_range|].
  unfold limit_orders.simulate_place_limit_order. step.
  change (99999999 <? 10000000) with false. cbv iota. step.
  destruct (int_ _); reflexivity.
Qed.

(** The market simulator, evaluated: the price is always computed, and is
    between 1000.0 and 2000.0; the rest is as for the limit simulator. *)
Lemma simulate_market_cases symbol side quantity w :
  exists px id,
    price_ok px = true /\ 10000000 <= id <= 99999999 /\
    market_orders.simulate_place_market_order symbol side quantity w
    = (match int_ (float_mul (clock w) (float_of_Z 1000)) with
       | inl e => inl e
       | inr ms =>
           inr [ (lit "orderId", VInt id);
                 (lit "symbol", VStr symbol);
                 (lit "side", VStr side);
                 (lit "status", VStr (lit "FILLED"));
                 (lit "executedQty", VFloat quantity);
                 (lit "avgPrice", VFloat px);
                 (lit "transactTime", VInt ms) ]
       end,
       drawn (drawn (entered "simulate_place_market_order" w))).
Proof.
  destruct (exec_price_range (Z.of_N (rng w (rng_pos w)) mod 2 ^ 53)) as (px & Hpx & Hok).
  { apply Z.mod_pos_bound. reflexivity. }
  exists px, (10000000 + Z.of_N (rng w (S (rng_pos w))) mod (99999999 - 10000000 + 1)).
  split; [exact Hok|]. split; [apply order_id_range|].
  unfold market_orders.simulate_place_market_order. step.
  rewrite Hpx.
  change (99999999 <? 10000000) with false. cbv iota. step.
  destruct (int_ _); reflexivity.
Qed.

(** Under a working clock both simulators return a record. *)
Lemma simulate_limit_total symbol side quantity price w :
  clock_ok (clock w) = true ->
  exists order w',
    limit_orders.simulate_place_limit_order symbol side quantity price w
    = (inr order, w').
Proof.
  intros Hc. destruct (transact_time_ok _ Hc) as [ms Hms].
  destruct (simulate_limit_cases symbol side quantity price w) as (id & _ & E).
  rewrite Hms in E. eexists _, _. exact E.
Qed.

Lemma simulate_market_total symbol side quantity w :
  clock_ok (clock w) = true ->
  exists order w',
    market_orders.simulate_place_market_order symbol side quantity w
    = (inr order, w').
Proof.
  intros Hc. destruct (transact_time_ok _ Hc) as [ms Hms].
  destruct (simulate_market_cases symbol side quantity w) as (px & id & _ & _ & E).
  rewrite Hms in E. eexists _, _. exact E.
Qed.

(** C5. For any symbol, side, quantity and price (in particular valid
    ones), every record [simulate_place_limit_order] returns has status
    "NEW", the quantity it was given as origQty and the price it was given
    as price, unchanged; and under a working clock it does return one. *)
Theorem limit_record_echoes (symbol side : str) (quantity price : float) (w : World) :
  (clock_ok (clock w) = true ->
   exists order w',
     limit_orders.simulate_place_limit_order symbol side quantity price w
     = (inr order, w')) /\
  (forall order w',
     limit_orders.simulate_place_limit_order symbol side quantity price w
     = (inr order, w') ->
     dict_get order (lit "status") = Some (VStr (lit "NEW")) /\
     dict_get order (lit "origQty") = Some (VFloat quantity) /\
     dict_get order (lit "price") = Some (VFloat price)).
Proof.
  split; [apply simulate_limit_total|].
  intros order w' H.
  destruct (simulate_limit_cases symbol side quantity price w) as (id & _ & E).
  rewrite E in H. destruct (int_ _); inversion H; subst.
  repeat split; reflexivity.
Qed.

Lemma limit_record_echoes_witness :
  exists order w',
    limit_orders.simulate_place_limit_order
      (lit "BTCUSDT") (lit "SELL") (dec2float false 2 (-2)) (float_of_Z 65000)
      (world_of 7 t_2023)
    = (inr order, w') /\
    dict_get order (lit "status") = Some (VStr (lit "NEW")) /\
    dict_get order (lit "origQty") = Some (VFloat (dec2float false 2 (-2))) /\
    dict_get order (lit "price") = Some (VFloat (float_of_Z 65000)).
Proof.
  destruct (proj1 (limit_record_echoes (lit "BTCUSDT") (lit "SELL")
                     (dec2float false 2 (-2)) (float_of_Z 65000) (world_of 7 t_2023))
              eq_refl) as (order & w' & E).
  exists order, w'. split; [exact E|].
  exact (proj2 (limit_record_echoes _ _ _ _ _) order w' E).
Defined.

(** C6. For any symbol, side and quantity (in particular valid ones),
    every record [simulate_place_market_order] returns has status "FILLED"
    and the quantity it was given as executedQty, unchanged; and under a
    working clock it does return one. *)
Theorem market_record_echoes (symbol side : str) (quantity : float) (w : World) :
  (clock_ok (clock w) = true ->
   exists order w',
     market_orders.simulate_place_market_order symbol side quantity w
     = (inr order, w')) /\
  (forall order w',
     market_orders.simulate_place_market_order symbol side quantity w
     = (inr order, w') ->
     dict_get order (lit "status") = Some (VStr (lit "FILLED")) /\
     dict_get order (lit "executedQty") = Some (VFloat quantity)).
Proof.
  split; [apply simulate_market_total|].
  intros order w' H.
  destruct (simulate_market_cases symbol side quantity w) as (px & id & _ & _ & E).
  rewrite E in H. destruct (int_ _); inversion H; subst.
  repeat split; reflexivity.
Qed.

Lemma market_record_echoes_witness :
  exists order w',
    market_orders.simulate_place_market_order
      (lit "BTCUSDT") (lit "BUY") (dec2float false 1 (-2)) (world_of 7 t_2023)
    = (inr order, w') /\
    dict_get order (lit "status") = Some (VStr (lit "FILLED")) /\
    dict_get order (lit "executedQty") = Some (VFloat (dec2float false 1 (-2))).
Proof.
  destruct (proj1 (market_record_echoes (lit "BTCUSDT") (lit "BUY")
                     (dec2float false 1 (-2)) (world_of 7 t_2023))
              eq_refl) as (order & w' & E).
  exists order, w'. split; [exact E|].
  exact (proj2 (market_record_echoes _ _ _ _) order w' E).
Defined.

(** C7. Every record either simulator returns has an integer orderId
    between 10000000 and 99999999, both included; and under a working
    clock each simulator does return one. *)
Theorem order_id_in_range (symbol side : str) (quantity price : float) (w : World) :
  (clock_ok (clock w) = true ->
   (exists order w',
      limit_orders.simulate_place_limit_order symbol side quantity price w
      = (inr order, w')) /\
   (exists order w',
      market_orders.simulate_place_market_order symbol side quantity w
      = (inr order, w'))) /\
  (forall order w',
     limit_orders.simulate_place_limit_order symbol side quantity price w
     = (inr order, w') ->
     exists id, dict_get order (lit "orderId") = Some (VInt id) /\
                10000000 <= id <= 99999999) /\
  (forall order w',
     market_orders.simulate_place_market_order symbol side quantity w
     = (inr order, w') ->
     exists id, dict_get order (lit "orderId") = Some (VInt id) /\
                10000000 <= id <= 99999999).
Proof.
  split; [|split].
  - intros Hc. split; [apply simulate_limit_total|apply simulate_market_total];
      exact Hc.
  - intros order w' H.
    destruct (simulate_limit_cases symbol side quantity price w) as (id & Hid & E).
    rewrite E in H. destruct (int_ _); inversion H; subst.
    exists id. split; [reflexivity|exact Hid].
  - intros order w' H.
    destruct (simulate_market_cases symbol side quantity w) as (px & id & _ & Hid & E).
    rewrite E in H. destruct (int_ _); inversion H; subst.
    exists id. split; [reflexivity|exact Hid].
Qed.

Lemma order_id_in_range_witness :
  (exists order w' id,
     limit_orders.simulate_place_limit_order
       (lit "BTCUSDT") (lit "SELL") (dec2float false 2 (-2)) (float_of_Z 65000)
       (world_of 123456789 t_2023)
     = (inr order, w') /\
     dict_get order (lit "orderId") = Some (VInt id) /\
     10000000 <= id <= 99999999) /\
  (exists order w' id,
     market_orders.simulate_place_market_order
       (lit "BTCUSDT") (lit "SELL") (dec2float false 2 (-2))
       (world_of 123456789 t_2023)
     = (inr order, w') /\
     dict_get order (lit "orderId") = Some (VInt id) /\
     10000000 <= id <= 99999999).
Proof.
  pose (T := order_id_in_range (lit "BTCUSDT") (lit "SELL") (dec2float false 2 (-2))
               (float_of_Z 65000) (world_of 123456789 t_2023)).
  destruct (proj1 T eq_refl) as [(o1 & w1 & E1) (o2 & w2 & E2)].
  split.
  - destruct (proj1 (proj2 T) o1 w1 E1) as (id & Hid).
    exists o1, w1, id. split; [exact E1|exact Hid].
  - destruct (proj2 (proj2 T) o2 w2 E2) as (id & Hid).
    exists o2, w2, id. split; [exact E2|exact Hid].
Defined.




(** ** The scripts *)

Lemma summaries_app a b : summaries (a ++ b) = summaries a ++ summaries b.
Proof. apply flat_map_app. Qed.

Lemma summaries_logged out r : summaries (out ++ [Logged r]) = summaries out.
Proof. rewrite summaries_app. cbn. apply app_nil_r. Qed.

Lemma validate_quantity_error ucd text e :
  limit_orders.validate_quantity ucd text = inl e -> is_Exception e = true.
Proof.
  rewrite validate_quantity_cases.
  destruct (float_of_str ucd text) as [q|]; [destruct (float_le q _)|];
    intros H; inversion H; reflexivity.
Qed.

Lemma validate_price_error ucd text e :
  limit_orders.validate_price ucd text = inl e -> is_Exception e = true.
Proof.
  rewrite validate_price_cases.
  destruct (float_of_str ucd text) as [q|]; [destruct (float_le q _)|];
    intros H; inversion H; reflexivity.
Qed.

Lemma not_in_sides side :
  existsb (str_eqb side) [lit "BUY"; lit "SELL"] = false <->
  side <> lit "BUY" /\ side <> lit "SELL".
Proof.
  rewrite <- not_true_iff_false, in_sides. tauto.
Qed.

(** limit_orders.py refuses a command line on which validation fails:
    status 2, no summary printed, the simulator not entered. *)
Lemma limit_main_rejects ucd cmd w :
  limit_rejected ucd cmd ->
  fst (run (limit_orders.main ucd cmd) w) = 2 /\
  summaries (stdout (snd (run (limit_orders.main ucd cmd) w))) = summaries (stdout w) /\
  calls (snd (run (limit_orders.main ucd cmd) w)) = calls w.
Proof.
  intros H. destruct cmd as [ns|msg|]; cbn [limit_rejected] in H.
  - cbv zeta in H. unfold limit_orders.main. step.
    destruct (limit_orders.validate_quantity ucd (limit_orders.ns_quantity ns))
      as [e|q] eqn:Hq.
    { assert (He := validate_quantity_error _ _ _ Hq). step. rewrite He. step.
      rewrite summaries_logged. repeat split; reflexivity. }
    destruct (limit_orders.validate_price ucd (limit_orders.ns_price ns))
      as [e|p] eqn:Hp.
    { assert (He := validate_price_error _ _ _ Hp). step. rewrite He. step.
      rewrite summaries_logged. repeat split; reflexivity. }
    destruct (existsb (str_eqb (upper ucd (strip ucd (limit_orders.ns_side ns))))
                limit_orders.VALID_SIDES) eqn:Hs.
    2:{ step. rewrite summaries_logged. repeat split; reflexivity. }
    destruct (limit_orders.validate_symbol ucd
                (upper ucd (strip ucd (limit_orders.ns_symbol ns)))) eqn:Hy.
    2:{ step. rewrite summaries_logged. repeat split; reflexivity. }
    exfalso. destruct H as [[e He]|[[e He]|[Hside|Hsym]]]; try discriminate.
    apply not_in_sides in Hside. unfold limit_orders.VALID_SIDES in Hs. congruence.
  - unfold limit_orders.main. step. repeat split; reflexivity.
  - contradiction.
Qed.

Lemma market_main_rejects ucd cmd w :
  market_rejected ucd cmd ->
  fst (run (market_orders.main ucd cmd) w) = 2 /\
  summaries (stdout (snd (run (market_orders.main ucd cmd) w))) = summaries (stdout w) /\
  calls (snd (run (market_orders.main ucd cmd) w)) = calls w.
Proof.
  intros H. destruct cmd as [ns|msg|]; cbn [market_rejected] in H.
  - cbv zeta in H. unfold market_orders.main. step.
    destruct (market_orders.validate_quantity ucd (market_orders.ns_quantity ns))
      as [e|q] eqn:Hq.
    { assert (He := validate_quantity_error _ _ _ Hq). step. rewrite He. step.
      rewrite summaries_logged. repeat split; reflexivity. }
    destruct (existsb (str_eqb (upper ucd (strip ucd (market_orders.ns_side ns))))
                market_orders.VALID_SIDES) eqn:Hs.
    2:{ step. rewrite summaries_logged. repeat split; reflexivity. }
    destruct (market_orders.validate_symbol ucd
                (upper ucd (strip ucd (market_orders.ns_symbol ns)))) eqn:Hy.
    2:{ step. rewrite summaries_logged. repeat split; reflexivity. }
    exfalso. destruct H as [[e He]|[Hside|Hsym]]; try discriminate.
    apply not_in_sides in Hside. unfold market_orders.VALID_SIDES in Hs. congruence.
  - unfold market_orders.main. step. repeat split; reflexivity.
  - contradiction.
Qed.

(** The simulators only raise ordinary exceptions and print nothing. *)
Lemma simulate_limit_raises symbol side quantity price w e w1 :
  limit_orders.simulate_place_limit_order symbol side quantity price w = (inl e, w1) ->
  is_Exception e = true /\ stdout w1 = stdout w.
Proof.
  unfold limit_orders.simulate_place_limit_order. step.
  change (99999999 <? 10000000) with false. cbv iota. step.
  destruct (float_mul (clock w) (float_of_Z 1000)); cbn [int_];
    intros H; inversion H; subst; split; reflexivity.
Qed.

Lemma simulate_market_raises symbol side quantity w e w1 :
  market_orders.simulate_place_market_order symbol side quantity w = (inl e, w1) ->
  is_Exception e = true /\ stdout w1 = stdout w.
Proof.
  unfold market_orders.simulate_place_market_order. step.
  destruct (round_ _ 2) as [e0|px] eqn:Hr.
  - intros H. inversion H; subst. split; [|reflexivity].
    unfold round_ in Hr.
    destruct (float_add _ _); try discriminate.
    change (323 <? 2) with false in Hr. change (2 <? -308) with false in Hr.
    cbv iota zeta in Hr.
    destruct (is_finite _); inversion Hr. reflexivity.
  - change (99999999 <? 10000000) with false. cbv iota. step.
    destruct (float_mul (clock w) (float_of_Z 1000)); cbn [int_];
      intros H; inversion H; subst; split; reflexivity.
Qed.

(** limit_orders.py, when the arguments pass validation and the
    simulator raises [e]: the exception is logged and the status is 1. *)
Lemma limit_main_failure ucd ns w q p e w1 :
  limit_orders.validate_quantity ucd (limit_orders.ns_quantity ns) = inr q ->
  limit_orders.validate_price ucd (limit_orders.ns_price ns) = inr p ->
  existsb (str_eqb (upper ucd (strip ucd (limit_orders.ns_side ns))))
          limit_orders.VALID_SIDES = true ->
  limit_orders.validate_symbol ucd
    (upper ucd (strip ucd (limit_orders.ns_symbol ns))) = true ->
  limit_orders.simulate_place_limit_order
    (upper ucd (strip ucd (limit_orders.ns_symbol ns)))
    (upper ucd (strip ucd (limit_orders.ns_side ns))) q p
    (log_to (info_record
               (limit_orders.placing
                  (upper ucd (strip ucd (limit_orders.ns_symbol ns)))
                  (upper ucd (strip ucd (limit_orders.ns_side ns))) q p)) w)
  = (inl e, w1) ->
  run (limit_orders.main ucd (Parsed ns)) w
  = (1, log_to (exception_record [Txt "Failed to place limit order"] e) w1).
Proof.
  intros Hq Hp Hs Hy Hsim.
  destruct (simulate_limit_raises _ _ _ _ _ _ _ Hsim) as [He _].
  unfold limit_orders.main. step. rewrite Hq, Hp. step. rewrite Hs, Hy. step.
  rewrite Hsim. step. rewrite He. reflexivity.
Qed.

Lemma market_main_failure ucd ns w q e w1 :
  market_orders.validate_quantity ucd (market_orders.ns_quantity ns) = inr q ->
  existsb (str_eqb (upper ucd (strip ucd (market_orders.ns_side ns))))
          market_orders.VALID_SIDES = true ->
  market_orders.validate_symbol ucd
    (upper ucd (strip ucd (market_orders.ns_symbol ns))) = true ->
  market_orders.simulate_place_market_order
    (upper ucd (strip ucd (market_orders.ns_symbol ns)))
    (upper ucd (strip ucd (market_orders.ns_side ns))) q
    (log_to (info_record
               (market_orders.placing
                  (upper ucd (strip ucd (market_orders.ns_symbol ns)))
                  (upper ucd (strip ucd (market_orders.ns_side ns))) q)) w)
  = (inl e, w1) ->
  run (market_orders.main ucd (Parsed ns)) w
  = (1, log_to (exception_record [Txt "Failed to place market order"] e) w1).
Proof.
  intros Hq Hs Hy Hsim.
  destruct (simulate_market_raises _ _ _ _ _ _ Hsim) as [He _].
  unfold market_orders.main. step. rewrite Hq. step. rewrite Hs, Hy. step.
  rewrite Hsim. step. rewrite He. reflexivity.
Qed.

(** C2. On every command line on which validation fails (malformed
    argument list, refused quantity or price, side that is neither BUY nor
    SELL once stripped and uppercased, refused symbol), either script
    exits with status 2, which is not zero, prints no order summary and
    never enters the simulator; a side whose normalised form is neither
    "BUY" nor "SELL" is such a failure. *)
Theorem validation_failure_exits (ucd : UnicodeData) (w : World) :
  (forall cmd,
     limit_rejected ucd cmd ->
     let out := run (limit_orders.main ucd cmd) w in
     fst out = 2 /\ fst out <> 0 /\
     summaries (stdout (snd out)) = summaries (stdout w) /\
     calls (snd out) = calls w) /\
  (forall cmd,
     market_rejected ucd cmd ->
     let out := run (market_orders.main ucd cmd) w in
     fst out = 2 /\ fst out <> 0 /\
     summaries (stdout (snd out)) = summaries (stdout w) /\
     calls (snd out) = calls w) /\
  (forall ns,
     upper ucd (strip ucd (limit_orders.ns_side ns)) <> lit "BUY" ->
     upper ucd (strip ucd (limit_orders.ns_side ns)) <> lit "SELL" ->
     limit_rejected ucd (Parsed ns)) /\
  (forall ns,
     upper ucd (strip ucd (market_orders.ns_side ns)) <> lit "BUY" ->
     upper ucd (strip ucd (market_orders.ns_side ns)) <> lit "SELL" ->
     market_rejected ucd (Parsed ns)).
Proof.
  repeat split.
  - apply limit_main_rejects; assumption.
  - destruct (limit_main_rejects ucd cmd w H) as [E _]. rewrite E. discriminate.
  - apply limit_main_rejects; assumption.
  - apply limit_main_rejects; assumption.
  - apply market_main_rejects; assumption.
  - destruct (market_main_rejects ucd cmd w H) as [E _]. rewrite E. discriminate.
  - apply market_main_rejects; assumption.
  - apply market_main_rejects; assumption.
  - cbn. right. right. left. split; assumption.
  - cbn. right. left. split; assumption.
Qed.

Lemma validation_failure_exits_witness :
  (let out := run (limit_orders.main ucd_ascii
                     (Parsed {| limit_orders.ns_symbol := lit "ethusd";
                                limit_orders.ns_side := lit "BUY";
                                limit_orders.ns_quantity := lit "1";
                                limit_orders.ns_price := lit "3000" |}))
                  (world_of 7 t_2023) in
   fst out = 2 /\ fst out <> 0 /\
   summaries (stdout (snd out)) = summaries (stdout (world_of 7 t_2023)) /\
   calls (snd out) = calls (world_of 7 t_2023)) /\
  (let out := run (market_orders.main ucd_ascii
                     (Parsed {| market_orders.ns_symbol := lit "BTCUSDT";
                                market_orders.ns_side := lit "HOLD";
                                market_orders.ns_quantity := lit "1" |}))
                  (world_of 7 t_2023) in
   fst out = 2 /\ fst out <> 0 /\
   summaries (stdout (snd out)) = summaries (stdout (world_of 7 t_2023)) /\
   calls (snd out) = calls (world_of 7 t_2023)).
Proof.
  split.
  - apply (proj1 (validation_failure_exits ucd_ascii (world_of 7 t_2023))).
    right. right. right. reflexivity.
  - apply (proj1 (proj2 (validation_failure_exits ucd_ascii (world_of 7 t_2023)))).
    apply (proj2 (proj2 (proj2 (validation_failure_exits ucd_ascii (world_of 7 t_2023)))));
      discriminate.
Defined.

(** C8. Under a working clock and for any arguments (in particular valid
    ones) neither simulator can fail; and when the simulator nevertheless
    raises an exception [e] on arguments that passed validation, [main]
    catches it, logs one record of level ERROR that carries [e], exits
    with status 1 and prints no order summary. *)
Theorem construction_failure_is_handled (ucd : UnicodeData) :
  (forall symbol side q p w,
     clock_ok (clock w) = true ->
     exists order w',
       limit_orders.simulate_place_limit_order symbol side q p w = (inr order, w')) /\
  (forall symbol side q w,
     clock_ok (clock w) = true ->
     exists order w',
       market_orders.simulate_place_market_order symbol side q w = (inr order, w')) /\
  (forall ns q p w e w1,
     let symbol := upper ucd (strip ucd (limit_orders.ns_symbol ns)) in
     let side := upper ucd (strip ucd (limit_orders.ns_side ns)) in
     limit_orders.validate_quantity ucd (limit_orders.ns_quantity ns) = inr q ->
     limit_orders.validate_price ucd (limit_orders.ns_price ns) = inr p ->
     side = lit "BUY" \/ side = lit "SELL" ->
     limit_orders.validate_symbol ucd symbol = true ->
     limit_orders.simulate_place_limit_order symbol side q p
       (log_to (info_record (limit_orders.placing symbol side q p)) w) = (inl e, w1) ->
     exists r,
       run (limit_orders.main ucd (Parsed ns)) w = (1, log_to r w1) /\
       lvl r = ERROR /\ exc_info r = Some e /\
       summaries (stdout (log_to r w1)) = summaries (stdout w)) /\
  (forall ns q w e w1,
     let symbol := upper ucd (strip ucd (market_orders.ns_symbol ns)) in
     let side := upper ucd (strip ucd (market_orders.ns_side ns)) in
     market_orders.validate_quantity ucd (market_orders.ns_quantity ns) = inr q ->
     side = lit "BUY" \/ side = lit "SELL" ->
     market_orders.validate_symbol ucd symbol = true ->
     market_orders.simulate_place_market_order symbol side q
       (log_to (info_record (market_orders.placing symbol side q)) w) = (inl e, w1) ->
     exists r,
       run (market_orders.main ucd (Parsed ns)) w = (1, log_to r w1) /\
       lvl r = ERROR /\ exc_info r = Some e /\
       summaries (stdout (log_to r w1)) = summaries (stdout w)).
Proof.
  split; [|split; [|split]].
  - intros symbol side q p w Hc.
    apply simulate_limit_total. exact Hc.
  - intros symbol side q w Hc.
    apply simulate_market_total. exact Hc.
  - intros ns q p w e w1 symbol side Hq Hp Hs Hy Hsim.
    exists (exception_record [Txt "Failed to place limit order"] e).
    split; [|split; [reflexivity|split; [reflexivity|]]].
    + apply (limit_main_failure ucd ns w q p e w1); try assumption.
      apply in_sides. exact Hs.
    + destruct (simulate_limit_raises _ _ _ _ _ _ _ Hsim) as [_ Eo].
      cbn [stdout log_to]. rewrite Eo. cbn [stdout log_to].
      rewrite !summaries_logged. reflexivity.
  - intros ns q w e w1 symbol side Hq Hs Hy Hsim.
    exists (exception_record [Txt "Failed to place market order"] e).
    split; [|split; [reflexivity|split; [reflexivity|]]].
    + apply (market_main_failure ucd ns w q e w1); try assumption.
      apply in_sides. exact Hs.
    + destruct (simulate_market_raises _ _ _ _ _ _ Hsim) as [_ Eo].
      cbn [stdout log_to]. rewrite Eo. cbn [stdout log_to].
      rewrite !summaries_logged. reflexivity.
Qed.

Lemma construction_failure_is_handled_witness :
  (clock_ok (clock (world_of 7 t_2023)) = true /\
   exists order w',
     limit_orders.simulate_place_limit_order
       (lit "BTCUSDT") (lit "SELL") (dec2float false 2 (-2)) (float_of_Z 65000)
       (world_of 7 t_2023) = (inr order, w')) /\
  (exists e w1 r,
     run (limit_orders.main ucd_ascii
            (Parsed {| limit_orders.ns_symbol := lit "btcusdt";
                       limit_orders.ns_side := lit " sell ";
                       limit_orders.ns_quantity := lit "0.02";
                       limit_orders.ns_price := lit "65000" |}))
         (world_of 7 (S754_infinity false))
     = (1, log_to r w1) /\
     lvl r = ERROR /\ exc_info r = Some e /\
     summaries (stdout (log_to r w1))
     = summaries (stdout (world_of 7 (S754_infinity false)))).
Proof.
  split.
  - split; [reflexivity|].
    apply (proj1 (construction_failure_is_handled ucd_ascii)). reflexivity.
  - eexists _, _.
    eapply (proj1 (proj2 (proj2 (construction_failure_is_handled ucd_ascii)))).
    + vm_compute. reflexivity.
    + vm_compute. reflexivity.
    + right. reflexivity.
    + reflexivity.
    + vm_compute. reflexivity.
Defined.

(** ** Two runs

    [limit_orders BTCUSDT SELL 0.02 65000] and
    [market_orders BTCUSDT BUY 0.01], with a generator that outputs 7:
    status 0, one summary printed, nothing on standard error. *)
Example limit_run :
  let out := run (limit_orders.main ucd_ascii
                    (Parsed {| limit_orders.ns_symbol := lit "BTCUSDT";
                               limit_orders.ns_side := lit "SELL";
                               limit_orders.ns_quantity := lit "0.02";
                               limit_orders.ns_price := lit "65000" |}))
                 (world_of 7 t_2023) in
  fst out = 0 /\
  summaries (stdout (snd out))
  = [[ (lit "orderId", VInt 10000007);
       (lit "symbol", VStr (lit "BTCUSDT"));
       (lit "side", VStr (lit "SELL"));
       (lit "status", VStr (lit "NEW"));
       (lit "origQty", VFloat (dec2float false 2 (-2)));
       (lit "price", VFloat (float_of_Z 65000)) ]] /\
  stderr (snd out) = [] /\
  calls (snd out) = ["simulate_place_limit_order"%string].
Proof. vm_compute. repeat split; reflexivity. Qed.

Example market_run :
  let out := run (market_orders.main ucd_ascii
                    (Parsed {| market_orders.ns_symbol := lit "BTCUSDT";
                               market_orders.ns_side := lit "BUY";
                               market_orders.ns_quantity := lit "0.01" |}))
                 (world_of 7 t_2023) in
  fst out = 0 /\
  summaries (stdout (snd out))
  = [[ (lit "orderId", VInt 10000007);
       (lit "symbol", VStr (lit "BTCUSDT"));
       (lit "side", VStr (lit "BUY"));
       (lit "status", VStr (lit "FILLED"));
       (lit "executedQty", VFloat (dec2float false 1 (-2)));
       (lit "avgPrice", VFloat f1000) ]] /\
  stderr (snd out) = [] /\
  calls (snd out) = ["simulate_place_market_order"%string].
Proof. vm_compute. repeat split; reflexivity. Qed.

(** ** The scripts, evaluated *)

(** limit_orders.py on a parsed command line, with every [try] resolved:
    the checks in the order they are made, then the simulator. *)
Lemma limit_main_eval ucd ns w :
  let symbol := upper ucd (strip ucd (limit_orders.ns_symbol ns)) in
  let side := upper ucd (strip ucd (limit_orders.ns_side ns)) in
  let refused log err :=
    (2, err_to err (log_to (error_record log) w)) in
  exists id, 10000000 <= id <= 99999999 /\
  run (limit_orders.main ucd (Parsed ns)) w =
  match limit_orders.validate_quantity ucd (limit_orders.ns_quantity ns) with
  | inl e => refused (Txt "Invalid input: " :: str_of_exn e)
                     (Txt "Invalid input: " :: str_of_exn e)
  | inr q =>
    match limit_orders.validate_price ucd (limit_orders.ns_price ns) with
    | inl e => refused (Txt "Invalid input: " :: str_of_exn e)
                       (Txt "Invalid input: " :: str_of_exn e)
    | inr p =>
      if negb (existsb (str_eqb side) limit_orders.VALID_SIDES) then
        refused [Txt "Invalid side: "; Val (VStr side)]
                [Txt "side must be BUY or SELL"]
      else if negb (limit_orders.validate_symbol ucd symbol) then
        refused [Txt "Invalid symbol: "; Val (VStr symbol)]
                [Txt "symbol must end with 'USDT' (e.g., BTCUSDT)"]
      else
        let w1 := drawn (entered "simulate_place_limit_order"
                    (log_to (info_record (limit_orders.placing symbol side q p)) w)) in
        match int_ (float_mul (clock w) (float_of_Z 1000)) with
        | inl e =>
            (1, log_to (exception_record [Txt "Failed to place limit order"] e) w1)
        | inr _ =>
            (0, out_to (Printed (limit_summary id symbol side q p))
                  (log_to (info_record
                             [Txt "Limit order placed | orderId="; Val (VInt id);
                              Txt " | status="; Val (VStr (lit "NEW"))]) w1))
        end
    end
  end.
Proof.
  cbv zeta.
  destruct (limit_orders.validate_quantity ucd (limit_orders.ns_quantity ns))
    as [e|q] eqn:Hq.
  { exists 10000000. split; [lia|].
    assert (He := validate_quantity_error _ _ _ Hq).
    unfold limit_orders.main. step. rewrite Hq. step. rewrite He. reflexivity. }
  destruct (limit_orders.validate_price ucd (limit_orders.ns_price ns))
    as [e|p] eqn:Hp.
  { exists 10000000. split; [lia|].
    assert (He := validate_price_error _ _ _ Hp).
    unfold limit_orders.main. step. rewrite Hq, Hp. step. rewrite He. reflexivity. }
  destruct (existsb (str_eqb (upper ucd (strip ucd (limit_orders.ns_side ns))))
              limit_orders.VALID_SIDES) eqn:Hs; cbn [negb].
  2:{ exists 10000000. split; [lia|].
      unfold limit_orders.main. step. rewrite Hq, Hp. step. rewrite Hs. reflexivity. }
  destruct (limit_orders.validate_symbol ucd
              (upper ucd (strip ucd (limit_orders.ns_symbol ns)))) eqn:Hy; cbn [negb].
  2:{ exists 10000000. split; [lia|].
      unfold limit_orders.main. step. rewrite Hq, Hp. step. rewrite Hs, Hy. reflexivity. }
  set (symbol := upper ucd (strip ucd (limit_orders.ns_symbol ns))) in *.
  set (side := upper ucd (strip ucd (limit_orders.ns_side ns))) in *.
  set (w0 := log_to (info_record (limit_orders.placing symbol side q p)) w).
  destruct (simulate_limit_cases symbol side q p w0) as (id & Hid & E).
  exists id. split; [exact Hid|].
  unfold limit_orders.main. step. rewrite Hq, Hp. step.
  fold symbol side. rewrite Hs, Hy. step. fold w0. rewrite E.
  change (clock w0) with (clock w).
  destruct (int_ (float_mul (clock w) (float_of_Z 1000))) as [e|ms] eqn:Hms.
  - assert (He : is_Exception e = true).
    { destruct (float_mul (clock w) (float_of_Z 1000)); cbn [int_] in Hms;
        inversion Hms; reflexivity. }
    step. rewrite He. reflexivity.
  - reflexivity.
Qed.

(** market_orders.py on a parsed command line, with every [try] resolved. *)
Lemma market_main_eval ucd ns w :
  let symbol := upper ucd (strip ucd (market_orders.ns_symbol ns)) in
  let side := upper ucd (strip ucd (market_orders.ns_side ns)) in
  let refused log err :=
    (2, err_to err (log_to (error_record log) w)) in
  exists id px, 10000000 <= id <= 99999999 /\ price_ok px = true /\
  run (market_orders.main ucd (Parsed ns)) w =
  match market_orders.validate_quantity ucd (market_orders.ns_quantity ns) with
  | inl e => refused (Txt "Invalid quantity: " :: str_of_exn e)
                     (Txt "Invalid quantity: " :: str_of_exn e)
  | inr q =>
      if negb (existsb (str_eqb side) market_orders.VALID_SIDES) then
        refused [Txt "Invalid side: "; Val (VStr side)]
                [Txt "side must be BUY or SELL"]
      else if negb (market_orders.validate_symbol ucd symbol) then
        refused [Txt "Invalid symbol: "; Val (VStr symbol)]
                [Txt "symbol must end with 'USDT' (e.g., BTCUSDT)"]
      else
        let w1 := drawn (drawn (entered "simulate_place_market_order"
                    (log_to (info_record (market_orders.placing symbol side q)) w))) in
        match int_ (float_mul (clock w) (float_of_Z 1000)) with
        | inl e =>
            (1, log_to (exception_record [Txt "Failed to place market order"] e) w1)
        | inr _ =>
            (0, out_to (Printed (market_summary id symbol side q px))
                  (log_to (info_record
                             [Txt "Market order placed | orderId="; Val (VInt id);
                              Txt " | avgPrice="; Val (VFloat px)]) w1))
        end
  end.
Proof.
  cbv zeta.
  destruct (market_orders.validate_quantity ucd (market_orders.ns_quantity ns))
    as [e|q] eqn:Hq.
  { exists 10000000, f1000. split; [lia|]. split; [reflexivity|].
    assert (He := validate_quantity_error _ _ _ Hq).
    unfold market_orders.main. step. rewrite Hq. step. rewrite He. reflexivity. }
  destruct (existsb (str_eqb (upper ucd (strip ucd (market_orders.ns_side ns))))
              market_orders.VALID_SIDES) eqn:Hs; cbn [negb].
  2:{ exists 10000000, f1000. split; [lia|]. split; [reflexivity|].
      unfold market_orders.main. step. rewrite Hq. step. rewrite Hs. reflexivity. }
  destruct (market_orders.validate_symbol ucd
              (upper ucd (strip ucd (market_orders.ns_symbol ns)))) eqn:Hy; cbn [negb].
  2:{ exists 10000000, f1000. split; [lia|]. split; [reflexivity|].
      unfold market_orders.main. step. rewrite Hq. step. rewrite Hs, Hy. reflexivity. }
  set (symbol := upper ucd (strip ucd (market_orders.ns_symbol ns))) in *.
  set (side := upper ucd (strip ucd (market_orders.ns_side ns))) in *.
  set (w0 := log_to (info_record (market_orders.placing symbol side q)) w).
  destruct (simulate_market_cases symbol side q w0) as (px & id & Hpx & Hid & E).
  exists id, px. split; [exact Hid|]. split; [exact Hpx|].
  unfold market_orders.main. step. rewrite Hq. step.
  fold symbol side. rewrite Hs, Hy. step. fold w0. rewrite E.
  change (clock w0) with (clock w).
  destruct (int_ (float_mul (clock w) (float_of_Z 1000))) as [e|ms] eqn:Hms.
  - assert (He : is_Exception e = true).
    { destruct (float_mul (clock w) (float_of_Z 1000)); cbn [int_] in Hms;
        inversion Hms; reflexivity. }
    step. rewrite He. reflexivity.
  - reflexivity.
Qed.

(** Whether the checks of limit_orders.py refuse parsed arguments, as a
    boolean: the four checks of [limit_rejected]. *)
Lemma limit_rejected_cases ucd ns :
  limit_rejected ucd (Parsed ns) <->
  match limit_orders.validate_quantity ucd (limit_orders.ns_quantity ns),
        limit_orders.validate_price ucd (limit_orders.ns_price ns) with
  | inr _, inr _ =>
      negb (existsb (str_eqb (upper ucd (strip ucd (limit_orders.ns_side ns))))
                    limit_orders.VALID_SIDES)
      || negb (limit_orders.validate_symbol ucd
                 (upper ucd (strip ucd (limit_orders.ns_symbol ns)))) = true
  | _, _ => True
  end.
Proof.
  cbn [limit_rejected]. cbv zeta.
  destruct (limit_orders.validate_quantity ucd (limit_orders.ns_quantity ns)) as [e|q].
  { split; [trivial|]. intros _. left. exists e. reflexivity. }
  destruct (limit_orders.validate_price ucd (limit_orders.ns_price ns)) as [e|p].
  { split; [trivial|]. intros _. right. left. exists e. reflexivity. }
  rewrite orb_true_iff, !negb_true_iff. unfold limit_orders.VALID_SIDES.
  rewrite not_in_sides. split.
  - intros [[e H]|[[e H]|[H|H]]]; try discriminate; [left|right]; exact H.
  - intros [H|H]; right; right; [left|right]; exact H.
Qed.

Lemma market_rejected_cases ucd ns :
  market_rejected ucd (Parsed ns) <->
  match market_orders.validate_quantity ucd (market_orders.ns_quantity ns) with
  | inr _ =>
      negb (existsb (str_eqb (upper ucd (strip ucd (market_orders.ns_side ns))))
                    market_orders.VALID_SIDES)
      || negb (market_orders.validate_symbol ucd
                 (upper ucd (strip ucd (market_orders.ns_symbol ns)))) = true
  | _ => True
  end.
Proof.
  cbn [market_rejected]. cbv zeta.
  destruct (market_orders.validate_quantity ucd (market_orders.ns_quantity ns)) as [e|q].
  { split; [trivial|]. intros _. left. exists e. reflexivity. }
  rewrite orb_true_iff, !negb_true_iff. unfold market_orders.VALID_SIDES.
  rewrite not_in_sides. split.
  - intros [[e H]|[H|H]]; try discriminate; [left|right]; exact H.
  - intros [H|H]; right; [left|right]; exact H.
Qed.



Lemma logged_app a b : logged (a ++ b) = logged a ++ logged b.
Proof. apply flat_map_app. Qed.

(** X1. When the arguments of limit_orders.py pass every check and the
    clock works, the script exits with status 0 and appends to standard
    output exactly three items: the "Placing" line, the "placed" line
    with the order id and status NEW, and the summary, whose six fields
    are the order id of the log line, the stripped and upper-cased symbol
    and side, NEW, and the parsed quantity and price (transactTime is
    left out); nothing goes to standard error and the simulator is
    entered once. *)
Theorem limit_order_placed (ucd : UnicodeData) (ns : limit_orders.Namespace) (w : World) :
  ~ limit_rejected ucd (Parsed ns) ->
  clock_ok (clock w) = true ->
  let symbol := upper ucd (strip ucd (limit_orders.ns_symbol ns)) in
  let side := upper ucd (strip ucd (limit_orders.ns_side ns)) in
  let out := run (limit_orders.main ucd (Parsed ns)) w in
  exists q p id,
    limit_orders.validate_quantity ucd (limit_orders.ns_quantity ns) = inr q /\
    limit_orders.validate_price ucd (limit_orders.ns_price ns) = inr p /\
    10000000 <= id <= 99999999 /\
    fst out = 0 /\
    stdout (snd out) =
      stdout w ++
      [ Logged (info_record (limit_orders.placing symbol side q p));
        Logged (info_record [Txt "Limit order placed | orderId="; Val (VInt id);
                             Txt " | status="; Val (VStr (lit "NEW"))]);
        Printed [ (lit "orderId", VInt id); (lit "symbol", VStr symbol);
                  (lit "side", VStr side); (lit "status", VStr (lit "NEW"));
                  (lit "origQty", VFloat q); (lit "price", VFloat p) ] ] /\
    stderr (snd out) = stderr w /\
    calls (snd out) = calls w ++ ["simulate_place_limit_order"%string].
Proof.
  intros Hacc Hc. cbv zeta.
  destruct (limit_main_eval ucd ns w) as (id & Hid & E). cbv zeta in E.
  rewrite E. clear E. rewrite limit_rejected_cases in Hacc.
  destruct (limit_orders.validate_quantity ucd (limit_orders.ns_quantity ns)) as [e|q];
    [elim Hacc; exact I|].
  destruct (limit_orders.validate_price ucd (limit_orders.ns_price ns)) as [e|p];
    [elim Hacc; exact I|].
  destruct (negb (existsb _ _)); [elim Hacc; reflexivity|].
  destruct (negb (limit_orders.validate_symbol _ _)); [elim Hacc; reflexivity|].
  destruct (transact_time_ok _ Hc) as [ms Hms]. rewrite Hms.
  exists q, p, id. cbn [fst snd stdout stderr calls out_to log_to drawn entered].
  rewrite <- !app_assoc. cbn [app]. unfold limit_summary.
  repeat split; try reflexivity; apply Hid.
Qed.

Lemma limit_order_placed_witness :
  let ns := {| limit_orders.ns_symbol := lit " btcusdt";
               limit_orders.ns_side := lit "sell ";
               limit_orders.ns_quantity := lit "0.02";
               limit_orders.ns_price := lit "65000" |} in
  let w := world_of 7 t_2023 in
  let out := run (limit_orders.main ucd_ascii (Parsed ns)) w in
  exists q p id,
    limit_orders.validate_quantity ucd_ascii (limit_orders.ns_quantity ns) = inr q /\
    limit_orders.validate_price ucd_ascii (limit_orders.ns_price ns) = inr p /\
    10000000 <= id <= 99999999 /\
    fst out = 0 /\
    stdout (snd out) =
      stdout w ++
      [ Logged (info_record (limit_orders.placing (lit "BTCUSDT") (lit "SELL") q p));
        Logged (info_record [Txt "Limit order placed | orderId="; Val (VInt id);
                             Txt " | status="; Val (VStr (lit "NEW"))]);
        Printed [ (lit "orderId", VInt id); (lit "symbol", VStr (lit "BTCUSDT"));
                  (lit "side", VStr (lit "SELL")); (lit "status", VStr (lit "NEW"));
                  (lit "origQty", VFloat q); (lit "price", VFloat p) ] ] /\
    stderr (snd out) = stderr w /\
    calls (snd out) = calls w ++ ["simulate_place_limit_order"%string].
Proof.
  cbv zeta.
  apply (limit_order_placed ucd_ascii
           {| limit_orders.ns_symbol := lit " btcusdt";
              limit_orders.ns_side := lit "sell ";
              limit_orders.ns_quantity := lit "0.02";
              limit_orders.ns_price := lit "65000" |} (world_of 7 t_2023)).
  - intros [[e H]|[[e H]|[[_ H]|H]]].
    + vm_compute in H. discriminate H.
    + vm_compute in H. discriminate H.
    + apply H. vm_compute. reflexivity.
    + vm_compute in H. discriminate H.
  - reflexivity.
Defined.

(** X2. When the arguments of market_orders.py pass every check and the
    clock works, the script exits with status 0 and appends to standard
    output exactly three items: the "Placing" line, the "placed" line
    with the order id and the average price, and the summary, whose six
    fields are that order id, the stripped and upper-cased symbol and
    side, FILLED, the parsed quantity and that price, which lies between
    1000 and 2000; nothing goes to standard error and the simulator is
    entered once. *)
Theorem market_order_placed (ucd : UnicodeData) (ns : market_orders.Namespace) (w : World) :
  ~ market_rejected ucd (Parsed ns) ->
  clock_ok (clock w) = true ->
  let symbol := upper ucd (strip ucd (market_orders.ns_symbol ns)) in
  let side := upper ucd (strip ucd (market_orders.ns_side ns)) in
  let out := run (market_orders.main ucd (Parsed ns)) w in
  exists q id px,
    market_orders.validate_quantity ucd (market_orders.ns_quantity ns) = inr q /\
    10000000 <= id <= 99999999 /\
    price_ok px = true /\
    fst out = 0 /\
    stdout (snd out) =
      stdout w ++
      [ Logged (info_record (market_orders.placing symbol side q));
        Logged (info_record [Txt "Market order placed | orderId="; Val (VInt id);
                             Txt " | avgPrice="; Val (VFloat px)]);
        Printed [ (lit "orderId", VInt id); (lit "symbol", VStr symbol);
                  (lit "side", VStr side); (lit "status", VStr (lit "FILLED"));
                  (lit "executedQty", VFloat q); (lit "avgPrice", VFloat px) ] ] /\
    stderr (snd out) = stderr w /\
    calls (snd out) = calls w ++ ["simulate_place_market_order"%string].
Proof.
  intros Hacc Hc. cbv zeta.
  destruct (market_main_eval ucd ns w) as (id & px & Hid & Hpx & E). cbv zeta in E.
  rewrite E. clear E. rewrite market_rejected_cases in Hacc.
  destruct (market_orders.validate_quantity ucd (market_orders.ns_quantity ns)) as [e|q];
    [elim Hacc; exact I|].
  destruct (negb (existsb _ _)); [elim Hacc; reflexivity|].
  destruct (negb (market_orders.validate_symbol _ _)); [elim Hacc; reflexivity|].
  destruct (transact_time_ok _ Hc) as [ms Hms]. rewrite Hms.
  exists q, id, px. cbn [fst snd stdout stderr calls out_to log_to drawn entered].
  rewrite <- !app_assoc. cbn [app]. unfold market_summary.
  repeat split; try reflexivity; try apply Hid. exact Hpx.
Qed.

Lemma market_order_placed_witness :
  let ns := {| market_orders.ns_symbol := lit "ethusdt ";
               market_orders.ns_side := lit " Buy";
               market_orders.ns_quantity := lit "1.5" |} in
  let w := world_of 7 t_2023 in
  let out := run (market_orders.main ucd_ascii (Parsed ns)) w in
  exists q id px,
    market_orders.validate_quantity ucd_ascii (market_orders.ns_quantity ns) = inr q /\
    10000000 <= id <= 99999999 /\
    price_ok px = true /\
    fst out = 0 /\
    stdout (snd out) =
      stdout w ++
      [ Logged (info_record (market_orders.placing (lit "ETHUSDT") (lit "BUY") q));
        Logged (info_record [Txt "Market order placed | orderId="; Val (VInt id);
                             Txt " | avgPrice="; Val (VFloat px)]);
        Printed [ (lit "orderId", VInt id); (lit "symbol", VStr (lit "ETHUSDT"));
                  (lit "side", VStr (lit "BUY")); (lit "status", VStr (lit "FILLED"));
                  (lit "executedQty", VFloat q); (lit "avgPrice", VFloat px) ] ] /\
    stderr (snd out) = stderr w /\
    calls (snd out) = calls w ++ ["simulate_place_market_order"%string].
Proof.
  cbv zeta.
  apply (market_order_placed ucd_ascii
           {| market_orders.ns_symbol := lit "ethusdt ";
              market_orders.ns_side := lit " Buy";
              market_orders.ns_quantity := lit "1.5" |} (world_of 7 t_2023)).
  - intros [[e H]|[[H _]|H]].
    + vm_compute in H. discriminate H.
    + apply H. vm_compute. reflexivity.
    + vm_compute in H. discriminate H.
  - reflexivity.
Defined.

(** X5. limit_orders.py checks the quantity, then the price, then the
    side, then the symbol, and reports the first failure only: one ERROR
    record (in bot.log and on standard output) and one message on
    standard error.  A refused quantity or price is reported with the
    validator's message after "Invalid input: ", whatever the later
    arguments are. *)
Theorem limit_reports_first_failure (ucd : UnicodeData) (ns : limit_orders.Namespace)
    (w : World) :
  let symbol := upper ucd (strip ucd (limit_orders.ns_symbol ns)) in
  let side := upper ucd (strip ucd (limit_orders.ns_side ns)) in
  let quantity := limit_orders.validate_quantity ucd (limit_orders.ns_quantity ns) in
  let price := limit_orders.validate_price ucd (limit_orders.ns_price ns) in
  let w' := snd (run (limit_orders.main ucd (Parsed ns)) w) in
  let reported log err :=
    bot_log w' = bot_log w ++ [error_record log] /\
    stdout w' = stdout w ++ [Logged (error_record log)] /\
    stderr w' = stderr w ++ [err] in
  (forall e, quantity = inl e ->
     reported (Txt "Invalid input: " :: str_of_exn e)
              (Txt "Invalid input: " :: str_of_exn e)) /\
  (forall q e, quantity = inr q -> price = inl e ->
     reported (Txt "Invalid input: " :: str_of_exn e)
              (Txt "Invalid input: " :: str_of_exn e)) /\
  (forall q p, quantity = inr q -> price = inr p ->
     side <> lit "BUY" -> side <> lit "SELL" ->
     reported [Txt "Invalid side: "; Val (VStr side)]
              [Txt "side must be BUY or SELL"]) /\
  (forall q p, quantity = inr q -> price = inr p ->
     side = lit "BUY" \/ side = lit "SELL" ->
     limit_orders.validate_symbol ucd symbol = false ->
     reported [Txt "Invalid symbol: "; Val (VStr symbol)]
              [Txt "symbol must end with 'USDT' (e.g., BTCUSDT)"]).
Proof.
  cbv zeta.
  destruct (limit_main_eval ucd ns w) as (id & _ & E). cbv zeta in E.
  rewrite E. clear E.
  split; [|split; [|split]].
  - intros e Hq. rewrite Hq. repeat split.
  - intros q e Hq Hp. rewrite Hq, Hp. repeat split.
  - intros q p Hq Hp H1 H2. rewrite Hq, Hp.
    assert (Hs := proj2 (not_in_sides _) (conj H1 H2)).
    unfold limit_orders.VALID_SIDES. rewrite Hs. repeat split.
  - intros q p Hq Hp Hs Hy. rewrite Hq, Hp.
    apply in_sides in Hs. unfold limit_orders.VALID_SIDES. rewrite Hs, Hy.
    repeat split.
Qed.

(** Everything is wrong on this command line; the quantity is reported. *)
Lemma limit_reports_first_failure_witness :
  let ns := {| limit_orders.ns_symbol := lit "eth-usd";
               limit_orders.ns_side := lit "hold";
               limit_orders.ns_quantity := lit "abc";
               limit_orders.ns_price := lit "-1" |} in
  let w := world_of 7 t_2023 in
  let w' := snd (run (limit_orders.main ucd_ascii (Parsed ns)) w) in
  let msg := [Txt "Invalid input: "; Txt "could not convert string to float: ";
              Quoted (lit "abc")] in
  bot_log w' = bot_log w ++ [error_record msg] /\
  stdout w' = stdout w ++ [Logged (error_record msg)] /\
  stderr w' = stderr w ++ [msg].
Proof.
  cbv zeta.
  apply (proj1 (limit_reports_first_failure ucd_ascii
                  {| limit_orders.ns_symbol := lit "eth-usd";
                     limit_orders.ns_side := lit "hold";
                     limit_orders.ns_quantity := lit "abc";
                     limit_orders.ns_price := lit "-1" |} (world_of 7 t_2023))
           (ArgumentTypeError [Txt "could not convert string to float: ";
                               Quoted (lit "abc")])).
  vm_compute. reflexivity.
Defined.

(** X6. market_orders.py checks the quantity, then the side, then the
    symbol, and reports the first failure only: one ERROR record (in
    bot.log and on standard output) and one message on standard error. *)
Theorem market_reports_first_failure (ucd : UnicodeData) (ns : market_orders.Namespace)
    (w : World) :
  let symbol := upper ucd (strip ucd (market_orders.ns_symbol ns)) in
  let side := upper ucd (strip ucd (market_orders.ns_side ns)) in
  let quantity := market_orders.validate_quantity ucd (market_orders.ns_quantity ns) in
  let w' := snd (run (market_orders.main ucd (Parsed ns)) w) in
  let reported log err :=
    bot_log w' = bot_log w ++ [error_record log] /\
    stdout w' = stdout w ++ [Logged (error_record log)] /\
    stderr w' = stderr w ++ [err] in
  (forall e, quantity = inl e ->
     reported (Txt "Invalid quantity: " :: str_of_exn e)
              (Txt "Invalid quantity: " :: str_of_exn e)) /\
  (forall q, quantity = inr q ->
     side <> lit "BUY" -> side <> lit "SELL" ->
     reported [Txt "Invalid side: "; Val (VStr side)]
              [Txt "side must be BUY or SELL"]) /\
  (forall q, quantity = inr q ->
     side = lit "BUY" \/ side = lit "SELL" ->
     market_orders.validate_symbol ucd symbol = false ->
     reported [Txt "Invalid symbol: "; Val (VStr symbol)]
              [Txt "symbol must end with 'USDT' (e.g., BTCUSDT)"]).
Proof.
  cbv zeta.
  destruct (market_main_eval ucd ns w) as (id & px & _ & _ & E). cbv zeta in E.
  rewrite E. clear E.
  split; [|split].
  - intros e Hq. rewrite Hq. repeat split.
  - intros q Hq H1 H2. rewrite Hq.
    assert (Hs := proj2 (not_in_sides _) (conj H1 H2)).
    unfold market_orders.VALID_SIDES. rewrite Hs. repeat split.
  - intros q Hq Hs Hy. rewrite Hq.
    apply in_sides in Hs. unfold market_orders.VALID_SIDES. rewrite Hs, Hy.
    repeat split.
Qed.

(** The side and the symbol are both wrong; the side is reported. *)
Lemma market_reports_first_failure_witness :
  let ns := {| market_orders.ns_symbol := lit "BTC/USDT";
               market_orders.ns_side := lit "long";
               market_orders.ns_quantity := lit "0.5" |} in
  let w := world_of 7 t_2023 in
  let w' := snd (run (market_orders.main ucd_ascii (Parsed ns)) w) in
  bot_log w' = bot_log w ++ [error_record [Txt "Invalid side: "; Val (VStr (lit "LONG"))]] /\
  stdout w' = stdout w ++
              [Logged (error_record [Txt "Invalid side: "; Val (VStr (lit "LONG"))])] /\
  stderr w' = stderr w ++ [[Txt "side must be BUY or SELL"]].
Proof.
  cbv zeta.
  apply (proj1 (proj2 (market_reports_first_failure ucd_ascii
                  {| market_orders.ns_symbol := lit "BTC/USDT";
                     market_orders.ns_side := lit "long";
                     market_orders.ns_quantity := lit "0.5" |} (world_of 7 t_2023)))
           (dec2float false 5 (-1))).
  - vm_compute. reflexivity.
  - discriminate.
  - discriminate.
Defined.

(** X7. Whatever the command line, the records either script appends to
    bot.log are exactly the log lines it appends to standard output, in
    the same order, and there are at most two of them. *)
Theorem log_file_mirrors_console (ucd : UnicodeData) (w : World) :
  (forall cmd,
     let w' := snd (run (limit_orders.main ucd cmd) w) in
     exists recs,
       bot_log w' = bot_log w ++ recs /\
       logged (stdout w') = logged (stdout w) ++ recs /\
       (length recs <= 2)%nat) /\
  (forall cmd,
     let w' := snd (run (market_orders.main ucd cmd) w) in
     exists recs,
       bot_log w' = bot_log w ++ recs /\
       logged (stdout w') = logged (stdout w) ++ recs /\
       (length recs <= 2)%nat).
Proof.
  split; intros [ns|msg|]; cbv zeta.
  - destruct (limit_main_eval ucd ns w) as (id & _ & E). cbv zeta in E.
    rewrite E. clear E.
    destruct (limit_orders.validate_quantity _ _) as [e|q];
      [|destruct (limit_orders.validate_price _ _) as [e|p];
        [|destruct (negb (existsb _ _));
          [|destruct (negb (limit_orders.validate_symbol _ _));
            [|destruct (int_ _)]]]];
      cbn [snd bot_log stdout out_to err_to log_to drawn entered];
      rewrite ?logged_app; cbn [logged flat_map app];
      rewrite <- ?app_assoc; cbn [app];
      eexists; (split; [reflexivity|split; [reflexivity|cbn; lia]]).
  - exists []. unfold limit_orders.main. step. cbn. rewrite !app_nil_r.
    repeat split. lia.
  - exists []. unfold limit_orders.main. step. cbn.
    rewrite logged_app. cbn. rewrite !app_nil_r. repeat split. lia.
  - destruct (market_main_eval ucd ns w) as (id & px & _ & _ & E). cbv zeta in E.
    rewrite E. clear E.
    destruct (market_orders.validate_quantity _ _) as [e|q];
      [|destruct (negb (existsb _ _));
        [|destruct (negb (market_orders.validate_symbol _ _));
          [|destruct (int_ _)]]];
      cbn [snd bot_log stdout out_to err_to log_to drawn entered];
      rewrite ?logged_app; cbn [logged flat_map app];
      rewrite <- ?app_assoc; cbn [app];
      eexists; (split; [reflexivity|split; [reflexivity|cbn; lia]]).
  - exists []. unfold market_orders.main. step. cbn. rewrite !app_nil_r.
    repeat split. lia.
  - exists []. unfold market_orders.main. step. cbn.
    rewrite logged_app. cbn. rewrite !app_nil_r. repeat split. lia.
Qed.

(** ** Edge cases of the validators *)

Lemma lstrip_with_all sp s : forallb sp s = true -> lstrip_with sp s = [].
Proof.
  induction s as [|c r IH]; [reflexivity|]. cbn. intros H.
  apply andb_prop in H. destruct H as [Hc Hr]. rewrite Hc. apply IH, Hr.
Qed.

Lemma strip_with_all sp s : forallb sp s = true -> strip_with sp s = [].
Proof. intros H. unfold strip_with. rewrite (lstrip_with_all _ _ H). reflexivity. Qed.

Lemma c_space_isspace ucd c : is_c_space c = true -> isspace ucd c = true.
Proof.
  unfold is_c_space, isspace, is_ascii, between. intros H.
  apply orb_prop in H. destruct H as [H|H].
  - apply andb_prop in H. destruct H as [H1 H2].
    apply N.leb_le in H1, H2.
    replace (c <? 128)%N with true by (symmetry; apply N.ltb_lt; lia).
    rewrite (proj2 (N.leb_le 9 c) H1), (proj2 (N.leb_le c 13) H2). reflexivity.
  - apply N.eqb_eq in H. subst c. reflexivity.
Qed.

Lemma c_space_ascii c : is_c_space c = true -> is_ascii c = true.
Proof.
  unfold is_c_space, is_ascii, between. intros H.
  apply orb_prop in H. destruct H as [H|H].
  - apply andb_prop in H. destruct H as [_ H2]. apply N.leb_le in H2.
    apply N.ltb_lt. lia.
  - apply N.eqb_eq in H. subst c. reflexivity.
Qed.

Lemma blank_strip ucd s : blank s = true -> strip ucd s = [].
Proof.
  intros H. apply strip_with_all. unfold blank in H.
  rewrite forallb_forall in *. intros c Hc. apply c_space_isspace, H, Hc.
Qed.

Lemma blank_float ucd s : blank s = true -> float_of_str ucd s = None.
Proof.
  intros H. unfold float_of_str, to_ascii_numeral.
  assert (Ha : forallb is_ascii s = true).
  { unfold blank in H. rewrite forallb_forall in *. intros c Hc.
    apply c_space_ascii, H, Hc. }
  rewrite Ha, (strip_with_all _ _ H). reflexivity.
Qed.

(** X8. An argument that is empty or made of ASCII blanks only is
    refused by either script, with status 2, in whichever position it
    stands: as a quantity or a price it does not convert to a float (the
    message quotes the text as given), and as a symbol or a side nothing
    is left of it once stripped. *)
Theorem blank_argument_refused (ucd : UnicodeData) (w : World) :
  (forall ns,
     blank (limit_orders.ns_symbol ns) || blank (limit_orders.ns_side ns)
     || blank (limit_orders.ns_quantity ns) || blank (limit_orders.ns_price ns) = true ->
     fst (run (limit_orders.main ucd (Parsed ns)) w) = 2) /\
  (forall ns,
     blank (market_orders.ns_symbol ns) || blank (market_orders.ns_side ns)
     || blank (market_orders.ns_quantity ns) = true ->
     fst (run (market_orders.main ucd (Parsed ns)) w) = 2) /\
  (forall text,
     blank text = true ->
     limit_orders.validate_quantity ucd text
     = inl (ArgumentTypeError [Txt "could not convert string to float: "; Quoted text]) /\
     limit_orders.validate_price ucd text
     = inl (ArgumentTypeError [Txt "could not convert string to float: "; Quoted text]) /\
     market_orders.validate_quantity ucd text
     = inl (ArgumentTypeError [Txt "could not convert string to float: "; Quoted text])) /\
  (forall text,
     blank text = true ->
     limit_orders.validate_symbol ucd (upper ucd (strip ucd text)) = false /\
     market_orders.validate_symbol ucd (upper ucd (strip ucd text)) = false).
Proof.
  assert (Hnum : forall text, blank text = true ->
            limit_orders.validate_quantity ucd text
            = inl (ArgumentTypeError
                     [Txt "could not convert string to float: "; Quoted text]) /\
            limit_orders.validate_price ucd text
            = inl (ArgumentTypeError
                     [Txt "could not convert string to float: "; Quoted text])).
  { intros text H. rewrite validate_quantity_cases, validate_price_cases.
    rewrite (blank_float ucd _ H). split; reflexivity. }
  split; [|split; [|split]].
  - intros ns H. apply limit_main_rejects. cbn [limit_rejected]. cbv zeta.
    apply orb_prop in H. destruct H as [H|H]; [|right; left; eexists; apply Hnum, H].
    apply orb_prop in H. destruct H as [H|H]; [|left; eexists; apply Hnum, H].
    apply orb_prop in H. destruct H as [H|H]; right; right.
    + right. rewrite (blank_strip ucd _ H). reflexivity.
    + left. rewrite (blank_strip ucd _ H). split; discriminate.
  - intros ns H. apply market_main_rejects. cbn [market_rejected]. cbv zeta.
    apply orb_prop in H. destruct H as [H|H];
      [|left; eexists; exact (proj1 (Hnum _ H))].
    apply orb_prop in H. destruct H as [H|H]; right.
    + right. rewrite (blank_strip ucd _ H). reflexivity.
    + left. rewrite (blank_strip ucd _ H). split; discriminate.
  - intros text H. destruct (Hnum text H) as [H1 H2]. repeat split; assumption.
  - intros text H. rewrite (blank_strip ucd _ H). split; reflexivity.
Qed.

(** An empty symbol, and a quantity of spaces. *)
Lemma blank_argument_refused_witness :
  fst (run (limit_orders.main ucd_ascii
              (Parsed {| limit_orders.ns_symbol := [];
                         limit_orders.ns_side := lit "BUY";
                         limit_orders.ns_quantity := lit "1";
                         limit_orders.ns_price := lit "2" |}))
           (world_of 7 t_2023)) = 2 /\
  fst (run (market_orders.main ucd_ascii
              (Parsed {| market_orders.ns_symbol := lit "BTCUSDT";
                         market_orders.ns_side := lit "BUY";
                         market_orders.ns_quantity := lit "   " |}))
           (world_of 7 t_2023)) = 2.
Proof.
  split.
  - apply (proj1 (blank_argument_refused ucd_ascii (world_of 7 t_2023))). reflexivity.
  - apply (proj1 (proj2 (blank_argument_refused ucd_ascii (world_of 7 t_2023)))).
    reflexivity.
Defined.

(** X9. [validate_price] and [validate_quantity] accept the same texts
    and return the same number for them; they fail on the same texts, and
    one reports a value that is not positive exactly when the other
    does. *)
Theorem validate_price_as_quantity (ucd : UnicodeData) (text : str) :
  (forall x, limit_orders.validate_price ucd text = inr x <->
             limit_orders.validate_quantity ucd text = inr x) /\
  ((exists e, limit_orders.validate_price ucd text = inl e) <->
   (exists e, limit_orders.validate_quantity ucd text = inl e)) /\
  (limit_orders.validate_price ucd text
   = inl (ArgumentTypeError [Txt "Price must be > 0"]) <->
   limit_orders.validate_quantity ucd text
   = inl (ArgumentTypeError [Txt "Quantity must be > 0"])).
Proof.
  rewrite validate_quantity_cases, validate_price_cases.
  destruct (float_of_str ucd text) as [q|].
  - destruct (float_le q (float_of_Z 0)).
    + repeat split; try discriminate; intros _; eexists; reflexivity.
    + repeat split; try discriminate; try (intros H; exact H);
        intros [e H]; discriminate H.
  - repeat split; try discriminate; try (intros H; exact H).
Qed.

(** X10. A number returned by [validate_quantity] or [validate_price]
    is greater than zero (possibly infinite) or is NaN: zero, negative
    numbers and minus infinity never pass. *)
Theorem validated_number_positive (ucd : UnicodeData) (text : str) (x : float) :
  limit_orders.validate_quantity ucd text = inr x \/
  limit_orders.validate_price ucd text = inr x \/
  market_orders.validate_quantity ucd text = inr x ->
  float_lt (float_of_Z 0) x = true \/ x = S754_nan.
Proof.
  change (market_orders.validate_quantity ucd text)
    with (limit_orders.validate_quantity ucd text).
  rewrite validate_quantity_cases, validate_price_cases.
  destruct (float_of_str ucd text) as [q|].
  2:{ intros [H|[H|H]]; discriminate H. }
  destruct (float_le q (float_of_Z 0)) eqn:Hle.
  { intros [H|[H|H]]; discriminate H. }
  intros H. assert (q = x) by (destruct H as [H|[H|H]]; congruence). subst q.
  destruct x as [s|[|]| |[|] m e]; try (right; reflexivity); try (left; reflexivity);
    discriminate Hle.
Qed.

Lemma validated_number_positive_witness :
  float_lt (float_of_Z 0) (dec2float false 2 (-2)) = true \/
  dec2float false 2 (-2) = S754_nan.
Proof.
  apply (validated_number_positive ucd_ascii (lit "0.02")).
  left. vm_compute. reflexivity.
Defined.

Lemma endswith_app p suffix : endswith (p ++ suffix) suffix = true.
Proof. apply endswith_spec. exists p. reflexivity. Qed.

Lemma endswith_other p a b :
  length a = length b -> a <> b -> endswith (p ++ a) b = false.
Proof.
  intros Hl Hne. apply not_true_iff_false. intros H.
  apply endswith_spec in H. destruct H as [p' H].
  assert (Hp : length p = length p').
  { apply (f_equal (@length _)) in H. rewrite !length_app in H. lia. }
  apply (f_equal (skipn (length p))) in H.
  rewrite skipn_app, skipn_all, Nat.sub_diag in H. cbn [skipn app] in H.
  rewrite Hp, skipn_app, skipn_all, Nat.sub_diag in H. cbn [skipn app] in H.
  contradiction.
Qed.

Lemma endswith_length s suffix :
  endswith s suffix = true -> (length suffix <= length s)%nat.
Proof.
  unfold endswith. intros H. apply andb_prop in H. destruct H as [H _].
  apply Nat.leb_le. exact H.
Qed.

(** X11. [validate_symbol] (in both scripts) accepts [base ++ "USDT"]
    exactly when every character of [base] is alphanumeric, the empty
    [base] included; it refuses every string that ends with "usdt" in
    lower case and every string of fewer than four characters. *)
Theorem validate_symbol_shape (ucd : UnicodeData) :
  let shape (validate : str -> bool) :=
    (forall base, validate (base ++ lit "USDT") = forallb (isalnum_char ucd) base) /\
    (forall base, validate (base ++ lit "usdt") = false) /\
    (forall s, (length s < 4)%nat -> validate s = false) in
  shape (limit_orders.validate_symbol ucd) /\
  shape (market_orders.validate_symbol ucd).
Proof.
  cbv zeta.
  assert (H : (forall base, limit_orders.validate_symbol ucd (base ++ lit "USDT")
                            = forallb (isalnum_char ucd) base) /\
              (forall base, limit_orders.validate_symbol ucd (base ++ lit "usdt") = false) /\
              (forall s, (length s < 4)%nat -> limit_orders.validate_symbol ucd s = false)).
  { unfold limit_orders.validate_symbol. cbn [andb]. split; [|split].
    - intros base. rewrite endswith_app, andb_true_r. unfold isalnum.
      destruct (base ++ lit "USDT") eqn:E; [destruct base; discriminate E|].
      rewrite <- E, forallb_app. cbn. apply andb_true_r.
    - intros base. rewrite endswith_other; [apply andb_false_r|reflexivity|discriminate].
    - intros s Hs. destruct (endswith s (lit "USDT")) eqn:E; [|apply andb_false_r].
      apply endswith_length in E. cbn in E. lia. }
  split; exact H.
Qed.

(** The bare quote asset is a symbol; a pair in lower case or with a
    separator is not. *)
Lemma validate_symbol_shape_witness :
  limit_orders.validate_symbol ucd_ascii (lit "USDT") = true /\
  limit_orders.validate_symbol ucd_ascii (lit "BTC-USDT") = false /\
  limit_orders.validate_symbol ucd_ascii (lit "btcusdt") = false /\
  market_orders.validate_symbol ucd_ascii (lit "SDT") = false.
Proof.
  destruct (validate_symbol_shape ucd_ascii) as [(H1 & H2 & H3) (_ & _ & H4)].
  split; [exact (H1 [])|]. split; [exact (H1 (lit "BTC-"))|].
  split; [exact (H2 (lit "btc"))|]. apply H4. cbn. lia.
Defined.

(** X12. The simulators write nothing: standard output, standard error
    and bot.log are as before the call.  The limit simulator asks the
    random module for one number, the market simulator for two, whether
    or not they return a record. *)
Theorem simulators_are_silent (symbol side : str) (quantity price : float) (w : World) :
  let l := snd (limit_orders.simulate_place_limit_order symbol side quantity price w) in
  let m := snd (market_orders.simulate_place_market_order symbol side quantity w) in
  (stdout l = stdout w /\ stderr l = stderr w /\ bot_log l = bot_log w /\
   rng_pos l = S (rng_pos w)) /\
  (stdout m = stdout w /\ stderr m = stderr w /\ bot_log m = bot_log w /\
   rng_pos m = S (S (rng_pos w))).
Proof.
  cbv zeta.
  destruct (simulate_limit_cases symbol side quantity price w) as (id & _ & E).
  destruct (simulate_market_cases symbol side quantity w) as (px & id' & _ & _ & E').
  rewrite E, E'. repeat split.
Qed.

(** X13. The order id, the timestamp and (for a market order) the
    average price do not depend on the symbol, side, quantity or price
    the simulator is given, and neither does the state it leaves. *)
Theorem simulated_values_ignore_arguments
    (symbol side symbol' side' : str) (quantity price quantity' price' : float)
    (w : World) :
  let l := limit_orders.simulate_place_limit_order symbol side quantity price w in
  let l' := limit_orders.simulate_place_limit_order symbol' side' quantity' price' w in
  let m := market_orders.simulate_place_market_order symbol side quantity w in
  let m' := market_orders.simulate_place_market_order symbol' side' quantity' w in
  (field "orderId" l = field "orderId" l' /\
   field "transactTime" l = field "transactTime" l' /\
   snd l = snd l') /\
  (field "orderId" m = field "orderId" m' /\
   field "avgPrice" m = field "avgPrice" m' /\
   field "transactTime" m = field "transactTime" m' /\
   snd m = snd m').
Proof.
  cbv zeta. unfold limit_orders.simulate_place_limit_order,
    market_orders.simulate_place_market_order. step.
  change (99999999 <? 10000000) with false. cbv iota. step.
  destruct (round_ _ 2) as [e|px]; step;
    destruct (int_ _) as [e'|ms]; repeat split.
Qed.

(** ** The price in cents and the timestamp in milliseconds *)

(** The number of cents [round(x, 2)] settles on, for [x] between 1000
    and 2000. *)
Lemma round2_cents m e :
  bounded prec emax m e = true ->
  units 8796093022208000 (-43) <= units m e <= units 8796093022208000 (-42) ->
  exists c, 100000 <= c <= 200000 /\
            round_ (S754_finite false m e) 2 = inr (dec2float false c (-2)).
Proof.
  intros Hb [Hlo Hhi].
  destruct (bounded_inv _ _ Hb) as (He & Hd & Hc).
  destruct (digits2_pos_bounds m) as [Hml Hmu].
  assert (HUv : U = 2200) by reflexivity.
  unfold units in Hlo, Hhi. pow_consts.
  assert (Hm53 : Zpos m < 2 ^ 53).
  { assert (2 ^ Zpos (digits2_pos m) <= 2 ^ 53) by (apply Z.pow_le_mono_r; lia). lia. }
  assert (HB : 0 < 2 ^ (e + U)) by (apply pow2_pos; lia).
  assert (He1 : -43 <= e).
  { destruct (Z.le_gt_cases (-43) e) as [|Hlt]; [assumption|exfalso].
    assert (2 ^ (e + U) <= 2 ^ (-44 + U)) by (apply Z.pow_le_mono_r; lia).
    pow_consts. change (2 ^ 53) with 9007199254740992 in Hm53. nia. }
  assert (He2 : e <= -42).
  { destruct (Z.le_gt_cases e (-42)) as [|Hgt]; [assumption|exfalso].
    assert (Hd53 : Zpos (digits2_pos m) = 53) by lia.
    rewrite Hd53 in Hml. change (2 ^ (53 - 1)) with 4503599627370496 in Hml.
    assert (2 ^ (-41 + U) <= 2 ^ (e + U)) by (apply Z.pow_le_mono_r; lia).
    pow_consts. nia. }
  assert (Hcases : e = -43 \/ e = -42) by lia.
  assert (HN : 100000 <= rne_div (Zpos m * 2 ^ Z.max e 0 * 10 ^ Z.max 2 0)
                                 (2 ^ Z.max (- e) 0 * 10 ^ Z.max (- (2)) 0) <= 200000).
  { apply rne_div_between.
    - destruct Hcases as [-> | ->]; reflexivity.
    - destruct Hcases as [-> | ->]; pow_consts.
      + change (Z.max (-43) 0) with 0. change (Z.max (- -43) 0) with 43.
        change (Z.max 2 0) with 2. change (Z.max (- (2)) 0) with 0.
        change (2 ^ 0) with 1. change (10 ^ 2) with 100. change (10 ^ 0) with 1.
        change (2 ^ 43) with 8796093022208. lia.
      + change (Z.max (-42) 0) with 0. change (Z.max (- -42) 0) with 42.
        change (Z.max 2 0) with 2. change (Z.max (- (2)) 0) with 0.
        change (2 ^ 0) with 1. change (10 ^ 2) with 100. change (10 ^ 0) with 1.
        change (2 ^ 42) with 4398046511104. lia. }
  destruct (round2_range m e Hb (conj ltac:(unfold units; pow_consts; exact Hlo)
                                      ltac:(unfold units; pow_consts; exact Hhi)))
    as (y & Hy & _).
  unfold round_ in *.
  change (323 <? 2) with false in *. change (2 <? -308) with false in *.
  cbv iota in *.
  set (N := rne_div _ _) in *.
  change (- (2)) with (-2) in *.
  exists N. split; [exact HN|].
  destruct (is_finite (dec2float false N (-2))); [reflexivity|discriminate Hy].
Qed.

(** The market simulator, evaluated, with the price as a number of cents. *)
Lemma simulate_market_cents symbol side quantity w :
  exists c id,
    100000 <= c <= 200000 /\
    market_orders.simulate_place_market_order symbol side quantity w
    = (match int_ (float_mul (clock w) (float_of_Z 1000)) with
       | inl e => inl e
       | inr ms =>
           inr [ (lit "orderId", VInt id);
                 (lit "symbol", VStr symbol);
                 (lit "side", VStr side);
                 (lit "status", VStr (lit "FILLED"));
                 (lit "executedQty", VFloat quantity);
                 (lit "avgPrice", VFloat (dec2float false c (-2)));
                 (lit "transactTime", VInt ms) ]
       end,
       drawn (drawn (entered "simulate_place_market_order" w))).
Proof.
  destruct (unrounded_price_range (Z.of_N (rng w (rng_pos w)) mod 2 ^ 53))
    as (m & e & E & Hb & Hv).
  { apply Z.mod_pos_bound. reflexivity. }
  destruct (round2_cents m e Hb Hv) as (c & Hc & Hr).
  exists c, (10000000 + Z.of_N (rng w (S (rng_pos w))) mod (99999999 - 10000000 + 1)).
  split; [exact Hc|].
  unfold market_orders.simulate_place_market_order. step.
  rewrite E, Hr.
  change (99999999 <? 10000000) with false. cbv iota. step.
  destruct (int_ _); reflexivity.
Qed.

(** X14. The avgPrice of every record [simulate_place_market_order]
    returns is the float nearest to [c / 100] for a whole number of cents
    [c] between 100000 and 200000. *)
Theorem avg_price_whole_cents (symbol side : str) (quantity : float) (w : World)
    (order : dict) (w' : World) :
  market_orders.simulate_place_market_order symbol side quantity w = (inr order, w') ->
  exists c,
    100000 <= c <= 200000 /\
    dict_get order (lit "avgPrice") = Some (VFloat (dec2float false c (-2))).
Proof.
  intros H.
  destruct (simulate_market_cents symbol side quantity w) as (c & id & Hc & E).
  remember (dec2float false c (-2)) as px eqn:Hpx.
  rewrite E in H. destruct (int_ _); inversion H; subst order.
  exists c. split; [exact Hc|]. rewrite <- Hpx. reflexivity.
Qed.

Lemma avg_price_whole_cents_witness :
  exists order c,
    fst (market_orders.simulate_place_market_order
           (lit "BTCUSDT") (lit "BUY") (dec2float false 1 (-2))
           (world_of 4503599627370496 t_2023)) = inr order /\
    100000 <= c <= 200000 /\
    dict_get order (lit "avgPrice") = Some (VFloat (dec2float false c (-2))).
Proof.
  destruct (simulate_market_total (lit "BTCUSDT") (lit "BUY") (dec2float false 1 (-2))
              (world_of 4503599627370496 t_2023) eq_refl) as (order & w' & E).
  destruct (avg_price_whole_cents _ _ _ _ order w' E) as (c & Hc).
  exists order, c. rewrite E. split; [reflexivity|exact Hc].
Defined.

(** A positive integer below [2^52] is a binary64 number. *)
Lemma int_as_float z :
  0 < z < 2 ^ 52 ->
  exists m e, bounded prec emax m e = true /\ units m e = z * 2 ^ U.
Proof.
  intros Hz. destruct z as [|p|p]; try lia.
  destruct (digits2_pos_bounds p) as [Hl Hu].
  assert (Hd0 := Pos2Z.is_pos (digits2_pos p)).
  assert (Hd : Zpos (digits2_pos p) - 1 < 52).
  { apply pow2_lt_inv; lia. }
  assert (HUv : U = 2200) by reflexivity.
  set (d := 53 - Zpos (digits2_pos p)).
  assert (Hdd : 1 <= d <= 52) by (unfold d; lia).
  exists (Pos.iter xO p (Z.to_pos d)), (- d).
  assert (Ed : Zpos (Z.to_pos d) = d) by (apply Z2Pos.id; lia).
  split.
  - apply bounded_intro.
    + lia.
    + rewrite digits_iter_xO, Ed. unfold d. lia.
    + right. rewrite digits_iter_xO, Ed. unfold d. lia.
  - unfold units. rewrite iter_xO, Ed, <- Z.mul_assoc.
    rewrite <- Z.pow_add_r by lia. f_equal. f_equal. lia.
Qed.

Lemma whole_millis_bounds m e :
  -1074 <= e -> Zpos (digits2_pos m) + e <= 38 ->
  0 <= whole_millis m e < 2 ^ 48 /\
  whole_millis m e * 2 ^ U <= 1000 * Zpos m * 2 ^ (e + U)
  <= (whole_millis m e + 1) * 2 ^ U.
Proof.
  intros He Hmag.
  destruct (digits2_pos_bounds m) as [_ Hmu].
  assert (Hd0 := Pos2Z.is_pos (digits2_pos m)).
  assert (Hm0 := Pos2Z.is_pos m).
  assert (HUv : U = 2200) by reflexivity.
  unfold whole_millis. destruct (0 <=? e) eqn:Ee.
  - apply Z.leb_le in Ee.
    assert (EP : 2 ^ (e + U) = 2 ^ e * 2 ^ U) by (apply Z.pow_add_r; lia).
    assert (HP : 0 < 2 ^ U) by (apply pow2_pos; lia).
    assert (HE : 0 < 2 ^ e) by (apply pow2_pos; lia).
    assert (Hlt : Zpos m * 2 ^ e < 2 ^ 38).
    { assert (Zpos m * 2 ^ e < 2 ^ Zpos (digits2_pos m) * 2 ^ e)
        by (apply Z.mul_lt_mono_pos_r; lia).
      rewrite <- Z.pow_add_r in H by lia.
      assert (2 ^ (Zpos (digits2_pos m) + e) <= 2 ^ 38)
        by (apply Z.pow_le_mono_r; lia).
      lia. }
    rewrite EP. set (P := 2 ^ U) in *. set (E := 2 ^ e) in *.
    clearbody P E.
    change (2 ^ 38) with 274877906944 in Hlt.
    change (2 ^ 48) with 281474976710656.
    assert (0 < Zpos m * E) by (apply Z.mul_pos_pos; lia).
    split; [lia|].
    replace (1000 * Zpos m * (E * P)) with (1000 * Zpos m * E * P) by ring.
    split; [lia|]. rewrite Z.mul_add_distr_r. lia.
  - apply Z.leb_gt in Ee.
    set (k := - e). assert (Hk : 0 < k <= 1074) by (unfold k; lia).
    assert (EP : 2 ^ U = 2 ^ k * 2 ^ (e + U)).
    { rewrite <- Z.pow_add_r by lia. f_equal. unfold k. lia. }
    assert (HB : 0 < 2 ^ (e + U)) by (apply pow2_pos; lia).
    assert (HK : 0 < 2 ^ k) by (apply pow2_pos; lia).
    assert (Hlt : Zpos m < 2 ^ 38 * 2 ^ k).
    { rewrite <- Z.pow_add_r by lia.
      assert (2 ^ Zpos (digits2_pos m) <= 2 ^ (38 + k))
        by (apply Z.pow_le_mono_r; unfold k; lia).
      lia. }
    assert (H1 := Z.mul_div_le (1000 * Zpos m) (2 ^ k) HK).
    assert (H2 := Z.mul_succ_div_gt (1000 * Zpos m) (2 ^ k) HK).
    assert (H3 : 0 <= 1000 * Zpos m / 2 ^ k) by (apply Z.div_pos; lia).
    assert (H4 : 1000 * Zpos m / 2 ^ k < 2 ^ 48).
    { apply Z.div_lt_upper_bound; [lia|].
      change (2 ^ 38) with 274877906944 in Hlt.
      change (2 ^ 48) with 281474976710656. lia. }
    rewrite EP.
    set (F := 1000 * Zpos m / 2 ^ k) in *.
    set (B := 2 ^ (e + U)) in *. set (K := 2 ^ k) in *.
    clearbody F B K.
    split; [lia|]. split.
    + replace (F * (K * B)) with (K * F * B) by ring.
      apply Z.mul_le_mono_nonneg_r; lia.
    + replace ((F + 1) * (K * B)) with (K * Z.succ F * B) by ring.
      apply Z.mul_le_mono_nonneg_r; lia.
Qed.

(** The timestamp in milliseconds of a working clock that reads
    [(-1)^s * m * 2^e] seconds: the whole milliseconds of the reading, or
    one more when the product rounds up to the next integer. *)
Lemma millis_of_clock s m e :
  clock_ok (S754_finite s m e) = true ->
  exists t,
    int_ (float_mul (S754_finite s m e) (float_of_Z 1000)) = inr (cond_Zopp s t) /\
    whole_millis m e <= t <= whole_millis m e + 1.
Proof.
  intros Hc. rewrite float_of_Z_1000. unfold f1000.
  cbn [clock_ok] in Hc. apply andb_prop in Hc. destruct Hc as [Hb Hmag].
  apply Z.leb_le in Hmag.
  destruct (bounded_inv _ _ Hb) as (He & Hd & _).
  assert (Hm0 := Pos2Z.is_pos m).
  assert (HUv : U = 2200) by reflexivity.
  destruct (whole_millis_bounds m e ltac:(lia) Hmag) as ([HF0 HF1] & HFl & HFh).
  set (F := whole_millis m e) in *. clearbody F.
  change (2 ^ 48) with 281474976710656 in HF1.
  assert (HP : 0 < 2 ^ U) by (apply pow2_pos; lia).
  (* the product, in units *)
  assert (Eprod : units (m * 8796093022208000) (e + -43) = 1000 * Zpos m * 2 ^ (e + U)).
  { unfold units. rewrite Pos2Z.inj_mul.
    replace (e + U) with (43 + (e + -43 + U)) by lia.
    rewrite (Z.pow_add_r 2 43) by lia.
    change (2 ^ 43) with 8796093022208. lia. }
  (* a number at or below the product that is at least F *)
  assert (HL : exists Lm Le, bounded prec emax Lm Le = true /\
                 F * 2 ^ U <= units Lm Le <= 1000 * Zpos m * 2 ^ (e + U)).
  { destruct (Z.eq_dec F 0) as [->|HFn].
    - exists 1%positive, (-1074). split; [reflexivity|].
      unfold units. rewrite Z.mul_1_l.
      assert (0 < 2 ^ (-1074 + U)) by (apply pow2_pos; lia).
      assert (2 ^ (-1074 + U) <= 2 ^ (e + U)) by (apply Z.pow_le_mono_r; lia).
      set (A := 2 ^ (-1074 + U)) in *. set (B := 2 ^ (e + U)) in *.
      clearbody A B. nia.
    - destruct (int_as_float F) as (Lm & Le & HbL & HuL).
      { change (2 ^ 52) with 4503599627370496. lia. }
      exists Lm, Le. split; [exact HbL|]. rewrite HuL. lia. }
  destruct HL as (Lm & Le & HbL & HLl & HLh).
  destruct (int_as_float (F + 1)) as (Hm & Hx & HbH & HuH).
  { change (2 ^ 52) with 4503599627370496. lia. }
  destruct (float_mul_pinch s m e false 8796093022208000 (-43) Lm Le Hm Hx)
    as (mp & ep & Ep & Hbp & Hpl & Hph); try reflexivity; try assumption.
  { rewrite Eprod, HuH. lia. }
  rewrite Ep, xorb_false_r. cbn [int_]. eexists. split; [reflexivity|].
  destruct (bounded_inv _ _ Hbp) as (Hep & _).
  assert (Hlo : F * 2 ^ U <= units mp ep) by lia.
  assert (Hhi : units mp ep <= (F + 1) * 2 ^ U) by lia.
  clear - Hlo Hhi Hep HP HUv. unfold units in *.
  assert (Hmp := Pos2Z.is_pos mp).
  destruct (0 <=? ep) eqn:Ee.
  - apply Z.leb_le in Ee.
    rewrite (Z.pow_add_r 2 ep U) in Hlo, Hhi by lia.
    rewrite Z.mul_assoc in Hlo, Hhi.
    split; apply (Z.mul_le_mono_pos_r _ _ (2 ^ U) HP); assumption.
  - apply Z.leb_gt in Ee.
    set (k := - ep). assert (Hk : 0 < k <= 1074) by (unfold k; lia).
    assert (EP : 2 ^ U = 2 ^ k * 2 ^ (ep + U)).
    { rewrite <- Z.pow_add_r by lia. f_equal. unfold k. lia. }
    assert (HB : 0 < 2 ^ (ep + U)) by (apply pow2_pos; lia).
    assert (HK : 0 < 2 ^ k) by (apply pow2_pos; lia).
    rewrite EP in Hlo, Hhi.
    rewrite Z.mul_assoc in Hlo, Hhi.
    apply (Z.mul_le_mono_pos_r _ _ _ HB) in Hlo, Hhi.
    split.
    + apply Z.div_le_lower_bound; lia.
    + apply Z.div_le_upper_bound; lia.
Qed.

(** X15. Under a working clock that reads [(-1)^s * m * 2^e] seconds,
    both simulators return a record whose transactTime is, in magnitude,
    the whole number of milliseconds in the reading or that number plus
    one (when the product by 1000 rounds up to the next integer), with
    the sign of the reading. *)
Theorem transact_time_is_clock_millis
    (symbol side : str) (quantity price : float) (w : World)
    (s : bool) (m : positive) (e : Z) :
  clock w = S754_finite s m e ->
  clock_ok (clock w) = true ->
  exists t,
    whole_millis m e <= t <= whole_millis m e + 1 /\
    field "transactTime"
      (limit_orders.simulate_place_limit_order symbol side quantity price w)
    = Some (VInt (cond_Zopp s t)) /\
    field "transactTime"
      (market_orders.simulate_place_market_order symbol side quantity w)
    = Some (VInt (cond_Zopp s t)).
Proof.
  intros Ec Hc. rewrite Ec in Hc.
  destruct (millis_of_clock s m e Hc) as (t & Ht & Hr).
  exists t. split; [exact Hr|].
  destruct (simulate_limit_cases symbol side quantity price w) as (id & _ & E).
  destruct (simulate_market_cases symbol side quantity w) as (px & id' & _ & _ & E').
  rewrite E, E', Ec, Ht. split; reflexivity.
Qed.

(** At 22:13:20 UTC on 14 November 2023. *)
Lemma transact_time_is_clock_millis_witness :
  exists t,
    1700000000000 <= t <= 1700000000000 + 1 /\
    field "transactTime"
      (limit_orders.simulate_place_limit_order
         (lit "BTCUSDT") (lit "SELL") (dec2float false 2 (-2)) (float_of_Z 65000)
         (world_of 7 t_2023))
    = Some (VInt t) /\
    field "transactTime"
      (market_orders.simulate_place_market_order
         (lit "BTCUSDT") (lit "SELL") (dec2float false 2 (-2)) (world_of 7 t_2023))
    = Some (VInt t).
Proof.
  exact (transact_time_is_clock_millis
           (lit "BTCUSDT") (lit "SELL") (dec2float false 2 (-2)) (float_of_Z 65000)
           (world_of 7 t_2023) false 7130316800000000 (-22) eq_refl eq_refl).
Defined.

(** ** Stripping and upper-casing *)

Lemma lstrip_with_prefix sp s :
  exists pre, s = pre ++ lstrip_with sp s /\ forallb sp pre = true.
Proof.
  induction s as [|c r (pre & E & H)]; [exists []; split; reflexivity|].
  cbn [lstrip_with]. destruct (sp c) eqn:Hc.
  - exists (c :: pre). cbn. rewrite Hc, H. split; [f_equal; exact E|reflexivity].
  - exists []. split; reflexivity.
Qed.

Lemma lstrip_with_clean sp s : clean_head sp (lstrip_with sp s).
Proof.
  induction s as [|c r IH]; [exact I|]. cbn [lstrip_with].
  destruct (sp c) eqn:Hc; [exact IH|exact Hc].
Qed.

Lemma lstrip_with_fixed sp s : clean_head sp s -> lstrip_with sp s = s.
Proof. destruct s as [|c r]; [reflexivity|]. cbn. intros ->. reflexivity. Qed.

Lemma strip_with_idempotent sp s :
  strip_with sp (strip_with sp s) = strip_with sp s.
Proof.
  unfold strip_with.
  set (a := lstrip_with sp s).
  set (b := lstrip_with sp (rev a)).
  assert (Ha : clean_head sp a) by apply lstrip_with_clean.
  assert (Hb : clean_head sp b) by apply lstrip_with_clean.
  assert (Hr : clean_head sp (rev b)).
  { destruct (lstrip_with_prefix sp (rev a)) as (pre & E & _). fold b in E.
    apply (f_equal (@rev _)) in E. rewrite rev_involutive, rev_app_distr in E.
    destruct (rev b) as [|c t]; [exact I|].
    rewrite E in Ha. exact Ha. }
  rewrite (lstrip_with_fixed _ _ Hr), rev_involutive, (lstrip_with_fixed _ _ Hb).
  reflexivity.
Qed.

Lemma lstrip_with_map sp (f : char -> char) (P : char -> Prop) s :
  (forall c, P c -> sp (f c) = sp c) -> Forall P s ->
  lstrip_with sp (map f s) = map f (lstrip_with sp s).
Proof.
  intros Hf. induction 1 as [|c r Hc Hr IH]; [reflexivity|].
  cbn [map lstrip_with]. rewrite (Hf c Hc). destruct (sp c); [exact IH|reflexivity].
Qed.

Lemma lstrip_with_Forall sp (P : char -> Prop) s :
  Forall P s -> Forall P (lstrip_with sp s).
Proof.
  induction 1 as [|c r Hc Hr IH]; [constructor|].
  cbn [lstrip_with]. destruct (sp c); [exact IH|constructor; assumption].
Qed.

Lemma strip_with_Forall sp (P : char -> Prop) s :
  Forall P s -> Forall P (strip_with sp s).
Proof.
  intros H. unfold strip_with.
  apply Forall_rev, lstrip_with_Forall, Forall_rev, lstrip_with_Forall, H.
Qed.

Lemma strip_with_map sp (f : char -> char) (P : char -> Prop) s :
  (forall c, P c -> sp (f c) = sp c) -> Forall P s ->
  strip_with sp (map f s) = map f (strip_with sp s).
Proof.
  intros Hf H. unfold strip_with.
  rewrite (lstrip_with_map sp f P s Hf H), <- map_rev.
  rewrite (lstrip_with_map sp f P _ Hf), <- map_rev; [reflexivity|].
  apply Forall_rev, lstrip_with_Forall, H.
Qed.

Lemma ascii_upper_cases c :
  (is_ascii_lower c = true /\ ascii_upper c = (c - 32)%N /\ (97 <= c <= 122)%N) \/
  (is_ascii_lower c = false /\ ascii_upper c = c).
Proof.
  unfold ascii_upper. destruct (is_ascii_lower c) eqn:E; [left|right; auto].
  repeat split. all: unfold is_ascii_lower, between in E;
    apply andb_prop in E; destruct E as [E1 E2];
    apply N.leb_le in E1, E2; assumption.
Qed.

Lemma ascii_upper_idempotent c : ascii_upper (ascii_upper c) = ascii_upper c.
Proof.
  destruct (ascii_upper_cases c) as [(_ & E & H)|(E1 & E)]; rewrite E.
  - unfold ascii_upper, is_ascii_lower, between.
    replace (97 <=? c - 32)%N with false; [reflexivity|].
    symmetry. apply N.leb_gt. lia.
  - unfold ascii_upper. rewrite E1. reflexivity.
Qed.

Lemma ascii_upper_is_ascii c : is_ascii c = true -> is_ascii (ascii_upper c) = true.
Proof.
  unfold is_ascii. intros H. apply N.ltb_lt in H. apply N.ltb_lt.
  destruct (ascii_upper_cases c) as [(_ & E & _)|(_ & E)]; rewrite E; lia.
Qed.

Lemma ascii_upper_isspace ucd c :
  is_ascii c = true -> isspace ucd (ascii_upper c) = isspace ucd c.
Proof.
  intros H. unfold isspace. rewrite (ascii_upper_is_ascii c H), H.
  destruct (ascii_upper_cases c) as [(_ & E & Hc)|(_ & E)]; rewrite E; [|reflexivity].
  unfold between.
  replace (c - 32 <=? 13)%N with false by (symmetry; apply N.leb_gt; lia).
  replace (c - 32 <=? 32)%N with false by (symmetry; apply N.leb_gt; lia).
  replace (c <=? 13)%N with false by (symmetry; apply N.leb_gt; lia).
  replace (c <=? 32)%N with false by (symmetry; apply N.leb_gt; lia).
  rewrite !andb_false_r. reflexivity.
Qed.

Lemma upper_of_ascii ucd s :
  Forall (fun c => is_ascii c = true) s -> upper ucd s = map ascii_upper s.
Proof.
  unfold upper. induction 1 as [|c r Hc Hr IH]; [reflexivity|].
  cbn [flat_map map]. rewrite IH. unfold upper_char. rewrite Hc. reflexivity.
Qed.

(** [s.strip().upper()] of an ASCII string, whatever the database. *)
Lemma normalised_ascii ucd s :
  Forall (fun c => is_ascii c = true) s ->
  upper ucd (strip ucd s) = map ascii_upper (strip ucd s) /\
  Forall (fun c => is_ascii c = true) (upper ucd (strip ucd s)) /\
  upper ucd (strip ucd (upper ucd (strip ucd s))) = upper ucd (strip ucd s).
Proof.
  intros H.
  assert (Hs : Forall (fun c => is_ascii c = true) (strip ucd s))
    by (apply strip_with_Forall, H).
  assert (E := upper_of_ascii ucd _ Hs).
  assert (Hu : Forall (fun c => is_ascii c = true) (map ascii_upper (strip ucd s))).
  { rewrite Forall_map. eapply Forall_impl; [|exact Hs].
    intros c Hc. apply ascii_upper_is_ascii, Hc. }
  split; [exact E|]. split; [rewrite E; exact Hu|].
  rewrite E. unfold strip at 1.
  rewrite (strip_with_map (isspace ucd) ascii_upper (fun c => is_ascii c = true));
    [|apply ascii_upper_isspace|exact Hs].
  fold (strip ucd (strip ucd s)). unfold strip at 1 2.
  rewrite strip_with_idempotent. fold (strip ucd s).
  rewrite upper_of_ascii by exact Hu.
  rewrite map_map. apply map_ext. intros c. apply ascii_upper_idempotent.
Qed.

(** X16. For ASCII arguments, stripping and upper-casing is idempotent
    and does not depend on the Unicode database; so running either script
    on the symbol and side as it prints them gives the same run as on the
    arguments as typed. *)
Theorem normalised_arguments_are_fixed (ucd : UnicodeData) (w : World) :
  let ascii s := Forall (fun c => is_ascii c = true) s in
  let norm s := upper ucd (strip ucd s) in
  (forall s, ascii s ->
     norm (norm s) = norm s /\ norm s = upper ucd_ascii (strip ucd_ascii s)) /\
  (forall ns,
     ascii (limit_orders.ns_symbol ns) -> ascii (limit_orders.ns_side ns) ->
     run (limit_orders.main ucd
            (Parsed {| limit_orders.ns_symbol := norm (limit_orders.ns_symbol ns);
                       limit_orders.ns_side := norm (limit_orders.ns_side ns);
                       limit_orders.ns_quantity := limit_orders.ns_quantity ns;
                       limit_orders.ns_price := limit_orders.ns_price ns |})) w
     = run (limit_orders.main ucd (Parsed ns)) w) /\
  (forall ns,
     ascii (market_orders.ns_symbol ns) -> ascii (market_orders.ns_side ns) ->
     run (market_orders.main ucd
            (Parsed {| market_orders.ns_symbol := norm (market_orders.ns_symbol ns);
                       market_orders.ns_side := norm (market_orders.ns_side ns);
                       market_orders.ns_quantity := market_orders.ns_quantity ns |})) w
     = run (market_orders.main ucd (Parsed ns)) w).
Proof.
  cbv zeta. split; [|split].
  - intros s H. destruct (normalised_ascii ucd s H) as (E & _ & Hi).
    split; [exact Hi|].
    destruct (normalised_ascii ucd_ascii s H) as (E' & _ & _).
    rewrite E, E'. f_equal. unfold strip, strip_with.
    assert (Hl : forall t, Forall (fun c => is_ascii c = true) t ->
              lstrip_with (isspace ucd) t = lstrip_with (isspace ucd_ascii) t).
    { induction 1 as [|c r Hc Hr IH]; [reflexivity|]. cbn [lstrip_with].
      unfold isspace at 1 3. rewrite Hc, IH. reflexivity. }
    rewrite (Hl s H). f_equal. apply Hl, Forall_rev, lstrip_with_Forall, H.
  - intros ns H1 H2.
    destruct (normalised_ascii ucd _ H1) as (_ & _ & E1).
    destruct (normalised_ascii ucd _ H2) as (_ & _ & E2).
    unfold run, limit_orders.main, parse_args.
    cbn [bind ret Monad_M limit_orders.ns_symbol limit_orders.ns_side
         limit_orders.ns_quantity limit_orders.ns_price].
    rewrite E1, E2. reflexivity.
  - intros ns H1 H2.
    destruct (normalised_ascii ucd _ H1) as (_ & _ & E1).
    destruct (normalised_ascii ucd _ H2) as (_ & _ & E2).
    unfold run, market_orders.main, parse_args.
    cbn [bind ret Monad_M market_orders.ns_symbol market_orders.ns_side
         market_orders.ns_quantity].
    rewrite E1, E2. reflexivity.
Qed.

Lemma normalised_arguments_are_fixed_witness :
  upper ucd_ascii (strip ucd_ascii (lit "  btcUsdt ")) = lit "BTCUSDT" /\
  run (limit_orders.main ucd_ascii
         (Parsed {| limit_orders.ns_symbol :=
                      upper ucd_ascii (strip ucd_ascii (lit "  btcUsdt "));
                    limit_orders.ns_side := upper ucd_ascii (strip ucd_ascii (lit "sell"));
                    limit_orders.ns_quantity := lit "0.02";
                    limit_orders.ns_price := lit "65000" |})) (world_of 7 t_2023)
  = run (limit_orders.main ucd_ascii
           (Parsed {| limit_orders.ns_symbol := lit "  btcUsdt ";
                      limit_orders.ns_side := lit "sell";
                      limit_orders.ns_quantity := lit "0.02";
                      limit_orders.ns_price := lit "65000" |})) (world_of 7 t_2023).
Proof.
  split; [reflexivity|].
  apply (proj1 (proj2 (normalised_arguments_are_fixed ucd_ascii (world_of 7 t_2023)))
           {| limit_orders.ns_symbol := lit "  btcUsdt ";
              limit_orders.ns_side := lit "sell";
              limit_orders.ns_quantity := lit "0.02";
              limit_orders.ns_price := lit "65000" |}).
  - cbn. repeat constructor.
  - cbn. repeat constructor.
Defined.

(** ** Reading a plain integer numeral *)

Lemma digit_char d : (d < 10)%N -> is_ascii_digit (48 + d)%N = true.
Proof.
  intros H. unfold is_ascii_digit, between.
  apply andb_true_intro. split; apply N.leb_le; lia.
Qed.

Lemma span_digits_numeral ds :
  Forall (fun d => (d < 10)%N) ds -> span_digits (numeral ds) = (ds, []).
Proof.
  induction 1 as [|d r Hd Hr IH]; [reflexivity|].
  cbn [numeral map span_digits]. rewrite (digit_char d Hd).
  fold (numeral r). rewrite IH. f_equal. f_equal. lia.
Qed.

Lemma drop_underscores_numeral ds : forall prev,
  (prev =? 95)%N = false ->
  Forall (fun d => (d < 10)%N) ds ->
  drop_underscores prev (numeral ds) = Some (numeral ds).
Proof.
  induction ds as [|d r IH]; intros prev Hp H.
  - cbn. rewrite Hp. reflexivity.
  - inversion H as [|? ? Hd Hr]; subst. cbn [numeral map drop_underscores].
    assert (E : (48 + d =? 95)%N = false) by (apply N.eqb_neq; lia).
    rewrite E, (digit_char d Hd), andb_false_r. fold (numeral r).
    rewrite (IH _ E Hr). reflexivity.
Qed.

Lemma take_sign_digit c r :
  is_ascii_digit c = true -> take_sign (c :: r) = (false, c :: r).
Proof.
  unfold is_ascii_digit, between. intros H.
  apply andb_prop in H. destruct H as [H1 H2]. apply N.leb_le in H1, H2.
  assert (Hc : (c = 48 \/ c = 49 \/ c = 50 \/ c = 51 \/ c = 52 \/ c = 53 \/ c = 54 \/
                c = 55 \/ c = 56 \/ c = 57)%N) by lia.
  repeat (destruct Hc as [->|Hc]; [reflexivity|]). subst c. reflexivity.
Qed.

Lemma strip_with_clean sp s :
  Forall (fun c => sp c = false) s -> strip_with sp s = s.
Proof.
  intros H. unfold strip_with.
  assert (Hh : forall t, Forall (fun c => sp c = false) t -> clean_head sp t).
  { intros t Ht. destruct Ht; [exact I|assumption]. }
  rewrite (lstrip_with_fixed sp s (Hh _ H)).
  rewrite (lstrip_with_fixed sp (rev s) (Hh _ (Forall_rev H))).
  apply rev_involutive.
Qed.

Lemma digits_value_nonneg ds : 0 <= digits_value ds.
Proof.
  unfold digits_value.
  assert (H : forall acc, 0 <= acc ->
            0 <= fold_left (fun acc d => 10 * acc + Z.of_N d) ds acc).
  { induction ds as [|d r IH]; intros acc Ha; [exact Ha|]. cbn [fold_left]. apply IH. lia. }
  apply H. lia.
Qed.

Lemma dec2float_integer D : 0 <= D -> dec2float false D 0 = float_of_Z D.
Proof.
  intros H. destruct D as [|d|d]; [reflexivity| |lia].
  unfold dec2float, float_of_Z. cbn [Z.leb Z.compare cond_Zopp].
  change (10 ^ 0) with 1. rewrite Z.mul_1_r. reflexivity.
Qed.

(** [float(text)] of a plain integer numeral. *)
Lemma float_of_numeral ucd ds :
  ds <> [] -> Forall (fun d => (d < 10)%N) ds ->
  float_of_str ucd (numeral ds) = Some (float_of_Z (digits_value ds)).
Proof.
  intros Hne H.
  assert (Hdig : Forall (fun c => is_ascii_digit c = true) (numeral ds)).
  { unfold numeral. rewrite Forall_map. eapply Forall_impl; [|exact H].
    intros d Hd. apply digit_char, Hd. }
  assert (Hasc : forallb is_ascii (numeral ds) = true).
  { apply forallb_forall. rewrite Forall_forall in Hdig. intros c Hc.
    specialize (Hdig c Hc). unfold is_ascii_digit, between in Hdig.
    apply andb_prop in Hdig. destruct Hdig as [_ H2]. apply N.leb_le in H2.
    apply N.ltb_lt. lia. }
  assert (Hsp : Forall (fun c => is_c_space c = false) (numeral ds)).
  { eapply Forall_impl; [|exact Hdig]. intros c Hc.
    unfold is_ascii_digit, between in Hc.
    apply andb_prop in Hc. destruct Hc as [H1 H2]. apply N.leb_le in H1, H2.
    unfold is_c_space, between.
    replace (c <=? 13)%N with false by (symmetry; apply N.leb_gt; lia).
    replace (c =? 32)%N with false by (symmetry; apply N.eqb_neq; lia).
    rewrite andb_false_r. reflexivity. }
  unfold float_of_str, to_ascii_numeral. rewrite Hasc, (strip_with_clean _ _ Hsp).
  rewrite (drop_underscores_numeral ds 0%N eq_refl H).
  unfold parse_decimal.
  destruct ds as [|d r]; [contradiction|].
  change (numeral (d :: r)) with ((48 + d)%N :: numeral r).
  rewrite take_sign_digit by (inversion H; subst; apply digit_char; assumption).
  change ((48 + d)%N :: numeral r) with (numeral (d :: r)).
  rewrite (span_digits_numeral _ H). rewrite app_nil_r.
  cbn [length Z.of_nat Z.opp]. rewrite dec2float_integer by apply digits_value_nonneg.
  reflexivity.
Qed.

(** A finite float that is the integer [n], converted back. *)
Lemma int_of_units s m e n :
  -1074 <= e -> units m e = n * 2 ^ U ->
  int_ (S754_finite s m e) = inr (cond_Zopp s n).
Proof.
  intros He Hu. cbn [int_]. f_equal. f_equal.
  assert (HUv : U = 2200) by reflexivity.
  assert (HP : 0 < 2 ^ U) by (apply pow2_pos; lia).
  unfold units in Hu.
  destruct (0 <=? e) eqn:Ee.
  - apply Z.leb_le in Ee.
    rewrite (Z.pow_add_r 2 e U) in Hu by lia. rewrite Z.mul_assoc in Hu.
    exact (proj1 (Z.mul_cancel_r _ _ (2 ^ U) ltac:(lia)) Hu).
  - apply Z.leb_gt in Ee.
    set (k := - e). assert (Hk : 0 < k <= 1074) by (unfold k; lia).
    assert (EP : 2 ^ U = 2 ^ k * 2 ^ (e + U)).
    { rewrite <- Z.pow_add_r by lia. f_equal. unfold k. lia. }
    assert (HB : 0 < 2 ^ (e + U)) by (apply pow2_pos; lia).
    assert (HK : 0 < 2 ^ k) by (apply pow2_pos; lia).
    rewrite EP, Z.mul_assoc in Hu.
    apply (proj1 (Z.mul_cancel_r _ _ (2 ^ (e + U)) ltac:(lia))) in Hu.
    rewrite Hu. apply Z.div_mul. lia.
Qed.

(** A positive integer below [2^52] converts to a float exactly. *)
Lemma float_of_Z_exact n :
  0 < n < 2 ^ 52 ->
  exists m e, float_of_Z n = S754_finite false m e /\
              bounded prec emax m e = true /\ units m e = n * 2 ^ U.
Proof.
  intros Hn. destruct (int_as_float n Hn) as (Lm & Le & Hb & Hu).
  destruct n as [|p|p]; try lia.
  unfold float_of_Z. cbn [binary_normalize].
  assert (HUv : U = 2200) by reflexivity.
  destruct (binary_round_pinch false p 0 Lm Le Lm Le) as (m & e & E & Hbm & Hl & Hh);
    try assumption; try lia.
  { unfold units at 2 3. rewrite Z.add_0_l, Hu. lia. }
  exists m, e. split; [exact E|]. split; [exact Hbm|]. lia.
Qed.

(** X17. For a text made of decimal digits only that denotes [n]: when
    [n] is zero the validators refuse it as not positive; when
    [0 < n < 2^52] they return the float equal to [n], which [int]
    converts back to [n]. *)
Theorem validated_integer_round_trip (ucd : UnicodeData) (ds : list N) :
  ds <> [] -> Forall (fun d => (d < 10)%N) ds ->
  let n := digits_value ds in
  let too_small (what : string) := inl (ArgumentTypeError [Txt what]) in
  (n = 0 ->
   limit_orders.validate_quantity ucd (numeral ds) = too_small "Quantity must be > 0"%string /\
   limit_orders.validate_price ucd (numeral ds) = too_small "Price must be > 0"%string /\
   market_orders.validate_quantity ucd (numeral ds) = too_small "Quantity must be > 0"%string) /\
  (0 < n < 2 ^ 52 ->
   limit_orders.validate_quantity ucd (numeral ds) = inr (float_of_Z n) /\
   limit_orders.validate_price ucd (numeral ds) = inr (float_of_Z n) /\
   market_orders.validate_quantity ucd (numeral ds) = inr (float_of_Z n) /\
   int_ (float_of_Z n) = inr n).
Proof.
  intros Hne H. cbv zeta.
  change (market_orders.validate_quantity ucd (numeral ds))
    with (limit_orders.validate_quantity ucd (numeral ds)).
  rewrite validate_quantity_cases, validate_price_cases.
  rewrite (float_of_numeral ucd ds Hne H).
  split.
  - intros ->. repeat split.
  - intros Hn. destruct (float_of_Z_exact _ Hn) as (m & e & E & Hb & Hu).
    rewrite E. destruct (bounded_inv _ _ Hb) as (He & _).
    rewrite (int_of_units false m e _ ltac:(lia) Hu).
    repeat split.
Qed.

Lemma validated_integer_round_trip_witness :
  limit_orders.validate_quantity ucd_ascii (lit "65000") = inr (float_of_Z 65000) /\
  limit_orders.validate_price ucd_ascii (lit "65000") = inr (float_of_Z 65000) /\
  market_orders.validate_quantity ucd_ascii (lit "65000") = inr (float_of_Z 65000) /\
  int_ (float_of_Z 65000) = inr 65000.
Proof.
  apply (proj2 (validated_integer_round_trip ucd_ascii [6; 5; 0; 0; 0]%N
                  ltac:(discriminate) ltac:(repeat constructor))).
  split; reflexivity.
Defined.
